(** * BME280 reader: calibration decoding and compensation

    A shallow embedding of [main] in
    [src/adapters/src/sensors/helpers/read_bme280.py].

    Python integers are [Z], Python floats are the binary64 numbers of
    [PrimFloat], and the lists of integers returned by the I2C bus are
    [list Z].  Exceptions are the [Err] results of an error monad whose
    bind sequences the statements of the source in source order.

    The bus is outside the model: [main] is a function of the three blocks
    that [read_i2c_block_data] returns.  The C library's [pow], which
    [x ** 2] calls, is a parameter of the compensation; the builtins
    [min], [max] and [round] and the implicit conversion of an [int]
    operand are defined on binary64. *)

From Stdlib Require Import ZArith List Bool Lia.
From Stdlib Require Import Floats.
From Stdlib Require Import Sorted.
From Stdlib Require String.
Import ListNotations.
Import String.StringSyntax.
Delimit Scope string_scope with string.

(** ** Exceptions and the error monad *)

Inductive exn : Type :=
| IndexError          (* list index out of range *)
| StructError         (* struct.error: unpack requires a buffer of n bytes *)
| ValueError          (* bytes must be in range(0, 256) *)
| ZeroDivisionError   (* float division by zero *)
| OverflowError.      (* int too large to convert to float; float power *)

Inductive result (A : Type) : Type :=
| Ok (a : A)
| Err (e : exn).

Arguments Ok {A} a.
Arguments Err {A} e.

Definition bind {A B : Type} (m : result A) (k : A -> result B) : result B :=
  match m with
  | Ok a => k a
  | Err e => Err e
  end.

Declare Scope py_scope.
Delimit Scope py_scope with py.
Notation "x <- m ;; k" := (bind m (fun x => k))
  (at level 61, m at next level, right associativity) : py_scope.
Open Scope py_scope.

(** ** Python list and [struct] primitives used by the source *)

Module Py.

Open Scope Z_scope.

(** [l[i]] for a constant index [i >= 0]. *)
Definition index (l : list Z) (i : nat) : result Z :=
  match nth_error l i with
  | Some x => Ok x
  | None => Err IndexError
  end.

(** [l[i:j]] for constants [0 <= i <= j]: never raises, clips to the list. *)
Definition slice (l : list Z) (i j : nat) : list Z :=
  firstn (j - i) (skipn i l).

Definition is_byte (x : Z) : bool := (0 <=? x) && (x <? 256).

(** [bytes(l)]: every element must be in [range(0, 256)]. *)
Definition bytes (l : list Z) : result (list Z) :=
  if forallb is_byte l then Ok l else Err ValueError.

(** [struct.unpack('<h', b)[0]]: little-endian signed 16-bit. *)
Definition unpack_h (b : list Z) : result Z :=
  match b with
  | [lo; hi] =>
      let u := lo + 256 * hi in
      Ok (if u <? 32768 then u else u - 65536)
  | _ => Err StructError
  end.

(** [struct.unpack('<b', b)[0]]: signed 8-bit. *)
Definition unpack_b (b : list Z) : result Z :=
  match b with
  | [x] => Ok (if x <? 128 then x else x - 256)
  | _ => Err StructError
  end.

End Py.

(** ** Calibration coefficients (lines 27-49 of the source) *)

Record CalibrationSet : Type := {
  dig_T1 : Z; dig_T2 : Z; dig_T3 : Z;
  dig_P1 : Z; dig_P2 : Z; dig_P3 : Z; dig_P4 : Z; dig_P5 : Z;
  dig_P6 : Z; dig_P7 : Z; dig_P8 : Z; dig_P9 : Z;
  dig_H1 : Z; dig_H2 : Z; dig_H3 : Z; dig_H4 : Z; dig_H5 : Z; dig_H6 : Z
}.

(** [struct.unpack('<h', bytes(cal[i:j]))[0]] *)
Definition signed16_at (cal : list Z) (i j : nat) : result Z :=
  b <- Py.bytes (Py.slice cal i j) ;;
  Py.unpack_h b.

Definition decode_calibration (cal1 cal2 : list Z) : result CalibrationSet :=
  (* Temperature calibration *)
  c0 <- Py.index cal1 0 ;;
  c1 <- Py.index cal1 1 ;;
  let T1 := Z.lor c0 (Z.shiftl c1 8) in
  T2 <- signed16_at cal1 2 4 ;;
  T3 <- signed16_at cal1 4 6 ;;
  (* Pressure calibration *)
  c6 <- Py.index cal1 6 ;;
  c7 <- Py.index cal1 7 ;;
  let P1 := Z.lor c6 (Z.shiftl c7 8) in
  P2 <- signed16_at cal1 8 10 ;;
  P3 <- signed16_at cal1 10 12 ;;
  P4 <- signed16_at cal1 12 14 ;;
  P5 <- signed16_at cal1 14 16 ;;
  P6 <- signed16_at cal1 16 18 ;;
  P7 <- signed16_at cal1 18 20 ;;
  P8 <- signed16_at cal1 20 22 ;;
  P9 <- signed16_at cal1 22 24 ;;
  (* Humidity calibration *)
  H1 <- Py.index cal1 25 ;;
  H2 <- signed16_at cal2 0 2 ;;
  H3 <- Py.index cal2 2 ;;
  d3 <- Py.index cal2 3 ;;
  d4 <- Py.index cal2 4 ;;
  let H4 := Z.lor (Z.shiftl d3 4) (Z.land d4 15) in
  d5 <- Py.index cal2 5 ;;
  d4' <- Py.index cal2 4 ;;
  let H5 := Z.lor (Z.shiftl d5 4) (Z.land (Z.shiftr d4' 4) 15) in
  d6 <- Py.index cal2 6 ;;
  b6 <- Py.bytes [d6] ;;
  H6 <- Py.unpack_b b6 ;;
  Ok {| dig_T1 := T1; dig_T2 := T2; dig_T3 := T3;
        dig_P1 := P1; dig_P2 := P2; dig_P3 := P3; dig_P4 := P4;
        dig_P5 := P5; dig_P6 := P6; dig_P7 := P7; dig_P8 := P8;
        dig_P9 := P9;
        dig_H1 := H1; dig_H2 := H2; dig_H3 := H3; dig_H4 := H4;
        dig_H5 := H5; dig_H6 := H6 |}.

(** ** Raw sample (lines 56-60) *)

Record RawSample : Type := {
  raw_pressure : Z;
  raw_temp : Z;
  raw_humidity : Z
}.

Definition read_raw (raw : list Z) : result RawSample :=
  r0 <- Py.index raw 0 ;;
  r1 <- Py.index raw 1 ;;
  r2 <- Py.index raw 2 ;;
  let p := Z.lor (Z.lor (Z.shiftl r0 12) (Z.shiftl r1 4)) (Z.shiftr r2 4) in
  r3 <- Py.index raw 3 ;;
  r4 <- Py.index raw 4 ;;
  r5 <- Py.index raw 5 ;;
  let t := Z.lor (Z.lor (Z.shiftl r3 12) (Z.shiftl r4 4)) (Z.shiftr r5 4) in
  r6 <- Py.index raw 6 ;;
  r7 <- Py.index raw 7 ;;
  let h := Z.lor (Z.shiftl r6 8) r7 in
  Ok {| raw_pressure := p; raw_temp := t; raw_humidity := h |}.

(** ** Python floats *)

(** A value that is an [int] on one path and a [float] on another: the
    degenerate branches assign the integer literal [0], the regular ones a
    float. *)
Inductive num : Type :=
| I (z : Z)
| F (f : float).

Module PyFloat.

(** Integers at or beyond this magnitude round to a value above the
    largest double, and their conversion raises [OverflowError]. *)
Definition overflow_threshold : Z := (2 ^ 1024 - 2 ^ 970)%Z.

(** The double nearest to an integer, ties to even. *)
Definition nearest (z : Z) : float :=
  SF2Prim (binary_normalize prec emax z 0%Z false).

(** Implicit conversion of an [int] operand of a float operation. *)
Definition float_of_int (z : Z) : result float :=
  if (Z.abs z <? overflow_threshold)%Z then Ok (nearest z)
  else Err OverflowError.

Definition add (x y : float) : result float := Ok (x + y)%float.
Definition sub (x y : float) : result float := Ok (x - y)%float.
Definition mul (x y : float) : result float := Ok (x * y)%float.

(** [x / y] raises [ZeroDivisionError] when [y == 0.0] (either sign). *)
Definition truediv (x y : float) : result float :=
  if (y =? 0)%float then Err ZeroDivisionError else Ok (x / y)%float.

(** [x != 0] for a float [x] (true for NaN). *)
Definition ne_zero (x : float) : bool := negb (x =? 0)%float.

(** [min(a, b)] and [max(a, b)] keep the first argument unless the
    second compares strictly below (above) it. *)
Definition min (a b : float) : float := if (b <? a)%float then b else a.
Definition max (a b : float) : float := if (a <? b)%float then b else a.

(** Nearest integer to [n / d] for [0 <= n] and [0 < d], ties to even. *)
Definition div_half_even (n d : Z) : Z :=
  let q := (n / d)%Z in
  match (2 * (n mod d) ?= d)%Z with
  | Lt => q
  | Gt => (q + 1)%Z
  | Eq => if Z.even q then q else (q + 1)%Z
  end.

(** [round(x, ndigits)] for a float [x] and [0 <= ndigits]: the exact
    value of [x] is rounded to [ndigits] decimals (ties to even), and the
    decimal obtained is converted back to the nearest double.  NaN, the
    infinities and the zeros are returned unchanged. *)
Definition round (x : float) (ndigits : Z) : result float :=
  match Prim2SF x with
  | S754_finite s m e =>
      let p := (10 ^ ndigits)%Z in
      let n := if (0 <=? e)%Z then (Zpos m * p * 2 ^ e)%Z
               else div_half_even (Zpos m * p) (2 ^ (- e)) in
      match n with
      | Zpos n' =>
          match SFdiv prec emax (S754_finite s n' 0)
                                (S754_finite false (Z.to_pos p) 0) with
          | S754_infinity _ => Err OverflowError
          | r => Ok (SF2Prim r)
          end
      | _ => Ok (SF2Prim (S754_zero s))
      end
  | _ => Ok x
  end.

End PyFloat.

(** *** Mixed-mode float arithmetic

    A binary float operation receives its operands already evaluated,
    left then right, and converts an [int] operand to a float at that
    point.  [FloatOperands A B] lists the operand type pairs on which the
    operation is a float operation (at least one side is a float); the
    conversion can only fail with [OverflowError]. *)

Class FloatOperands (A B : Type) : Type := {
  to_doubles : A -> B -> result (float * float);
  to_doubles_exn : forall x y e, to_doubles x y = Err e -> e = OverflowError
}.

#[export, refine] Instance float_float_operands : FloatOperands float float := {
  to_doubles x y := Ok (x, y)
}.
Proof. discriminate. Defined.

#[export, refine] Instance int_float_operands : FloatOperands Z float := {
  to_doubles x y := xf <- PyFloat.float_of_int x ;; Ok (xf, y)
}.
Proof.
  intros x y e. unfold PyFloat.float_of_int.
  destruct (Z.abs x <? PyFloat.overflow_threshold)%Z; simpl; congruence.
Defined.

#[export, refine] Instance float_int_operands : FloatOperands float Z := {
  to_doubles x y := yf <- PyFloat.float_of_int y ;; Ok (x, yf)
}.
Proof.
  intros x y e. unfold PyFloat.float_of_int.
  destruct (Z.abs y <? PyFloat.overflow_threshold)%Z; simpl; congruence.
Defined.

Definition binop {A B : Type} `{FloatOperands A B}
    (op : float -> float -> result float)
    (a : result A) (b : result B) : result float :=
  x <- a ;; y <- b ;; p <- to_doubles x y ;; op (fst p) (snd p).

(** A variable or a literal of the source, as an operand. *)
Definition flt (x : float) : result float := Ok x.
Definition int (z : Z) : result Z := Ok z.
Arguments flt x%_float.
Arguments int z%_Z.

Declare Scope pyexpr_scope.
Delimit Scope pyexpr_scope with pyexpr.
Notation "a + b" := (binop PyFloat.add a b) : pyexpr_scope.
Notation "a - b" := (binop PyFloat.sub a b) : pyexpr_scope.
Notation "a * b" := (binop PyFloat.mul a b) : pyexpr_scope.
Notation "a / b" := (binop PyFloat.truediv a b) : pyexpr_scope.

(** ** Compensation (lines 62-93) and report (lines 95-99) *)

(** The three unrounded values. *)
Record Reading : Type := {
  temperature : float;
  humidity : num;
  pressure : num
}.

Section Compensation.

(** The C library's [pow], on which Python's float power rests. *)
Variable libm_pow : float -> float -> float.

(** [x ** y] as the source uses it, with the exponent [2]: the library's
    result, [OverflowError] when it is infinite although the operands are
    finite. *)
Definition float_pow (x y : float) : result float :=
  let r := libm_pow x y in
  if is_finite x && is_finite y && is_infinity r
  then Err OverflowError else Ok r.

Notation "a ** b" := (binop float_pow a b)
  (at level 30, right associativity) : pyexpr_scope.

Open Scope pyexpr_scope.

Variable cal : CalibrationSet.

(** Lines 62-66; returns [(t_fine, temperature)]. *)
Definition compensate_temperature (raw_temp : Z) : result (float * float) :=
  var1 <- (int raw_temp / flt 16384.0 - int cal.(dig_T1) / flt 1024.0)
          * int cal.(dig_T2) ;;
  var2 <- ((int raw_temp / flt 131072.0 - int cal.(dig_T1) / flt 8192.0) ** int 2)
          * int cal.(dig_T3) ;;
  t_fine <- flt var1 + flt var2 ;;
  temperature <- flt t_fine / flt 5120.0 ;;
  Ok (t_fine, temperature).

(** Lines 69-74: [(var1, var2)] as they stand at the test of line 75. *)
Definition pressure_terms (t_fine : float) : result (float * float) :=
  var1 <- flt t_fine / flt 2.0 - flt 64000.0 ;;
  var2 <- flt var1 * flt var1 * int cal.(dig_P6) / flt 32768.0 ;;
  var2 <- flt var2 + flt var1 * int cal.(dig_P5) * flt 2.0 ;;
  var2 <- flt var2 / flt 4.0 + int cal.(dig_P4) * flt 65536.0 ;;
  var1 <- (int cal.(dig_P3) * flt var1 * flt var1 / flt 524288.0
           + int cal.(dig_P2) * flt var1) / flt 524288.0 ;;
  var1 <- (flt 1.0 + flt var1 / flt 32768.0) * int cal.(dig_P1) ;;
  Ok (var1, var2).

(** Lines 76-80, the branch taken when [var1 != 0]. *)
Definition pressure_polynomial (raw_pressure : Z) (var1 var2 : float)
    : result float :=
  pressure <- flt 1048576.0 - int raw_pressure ;;
  pressure <- ((flt pressure - flt var2 / flt 4096.0) * flt 6250.0) / flt var1 ;;
  var1 <- int cal.(dig_P9) * flt pressure * flt pressure / flt 2147483648.0 ;;
  var2 <- flt pressure * int cal.(dig_P8) / flt 32768.0 ;;
  pressure <- (flt pressure + (flt var1 + flt var2 + int cal.(dig_P7)) / flt 16.0)
              / flt 100.0 ;;
  Ok pressure.

(** Lines 68-82. *)
Definition compensate_pressure (raw_pressure : Z) (t_fine : float) : result num :=
  vv <- pressure_terms t_fine ;;
  let '(var1, var2) := vv in
  if PyFloat.ne_zero var1 then
    pressure <- pressure_polynomial raw_pressure var1 var2 ;;
    Ok (F pressure)
  else
    Ok (I 0).

(** Lines 87-90, the branch taken when [h != 0]. *)
Definition humidity_polynomial (raw_humidity : Z) (h : float) : result float :=
  h <- (int raw_humidity
        - (int cal.(dig_H4) * flt 64.0 + int cal.(dig_H5) / flt 16384.0 * flt h))
       * (int cal.(dig_H2) / flt 65536.0
          * (flt 1.0 + int cal.(dig_H6) / flt 67108864.0 * flt h
                       * (flt 1.0 + int cal.(dig_H3) / flt 67108864.0 * flt h))) ;;
  h <- flt h * (flt 1.0 - int cal.(dig_H1) * flt h / flt 524288.0) ;;
  Ok h.

(** Lines 84-93. *)
Definition compensate_humidity (raw_humidity : Z) (t_fine : float) : result num :=
  h <- flt t_fine - flt 76800.0 ;;
  if PyFloat.ne_zero h then
    h <- humidity_polynomial raw_humidity h ;;
    Ok (F (PyFloat.max 0.0 (PyFloat.min 100.0 h)))
  else
    Ok (I 0).

(** Lines 62-93. *)
Definition compensate (raw : RawSample) : result Reading :=
  tt <- compensate_temperature raw.(raw_temp) ;;
  let '(t_fine, temperature) := tt in
  pressure <- compensate_pressure raw.(raw_pressure) t_fine ;;
  humidity <- compensate_humidity raw.(raw_humidity) t_fine ;;
  Ok {| temperature := temperature; humidity := humidity; pressure := pressure |}.

End Compensation.

(** [round(v, ndigits)]: an [int] is returned unchanged for [0 <= ndigits]. *)
Definition round_num (v : num) (ndigits : Z) : result num :=
  match v with
  | I z => Ok (I z)
  | F f => r <- PyFloat.round f ndigits ;; Ok (F r)
  end.

(** The dictionary handed to [json.dumps] (lines 95-99). *)
Record Report : Type := {
  report_temperature : float;
  report_humidity : num;
  report_pressure : num
}.

Definition report (r : Reading) : result Report :=
  t <- PyFloat.round r.(temperature) 1 ;;
  h <- round_num r.(humidity) 1 ;;
  p <- round_num r.(pressure) 2 ;;
  Ok {| report_temperature := t; report_humidity := h; report_pressure := p |}.

(** [main], as a function of the three blocks the bus returns: the
    calibration blocks read at 0x88 and 0xE1 and the data burst read at
    0xF7. *)
Definition main (libm_pow : float -> float -> float)
    (cal1 cal2 raw : list Z) : result Report :=
  cal <- decode_calibration cal1 cal2 ;;
  sample <- read_raw raw ;;
  r <- compensate libm_pow cal sample ;;
  report r.

(** A correctly rounded square: the library power at exponent 2 of a
    correctly rounding C library. *)
Definition pow_square (x y : float) : float := (x * x)%float.

(** The worked example of the sensor's datasheet. *)
Definition datasheet_cal1 : list Z :=
  [0x70; 0x6B; 0x43; 0x67; 0x18; 0xFC; 0x7D; 0x8E; 0x43; 0xD6; 0xD0; 0x0B;
   0x27; 0x0B; 0x8C; 0x00; 0xF9; 0xFF; 0x8C; 0x3C; 0xF8; 0xC6; 0x70; 0x17;
   0x00; 0x4B]%Z.
Definition datasheet_cal2 : list Z := [0x6A; 0x01; 0x00; 0x13; 0x2D; 0x03; 0x1E]%Z.
Definition datasheet_raw : list Z :=
  [0x65; 0x5A; 0xC0; 0x7E; 0xED; 0x00; 0x80; 0x00]%Z.


(** ** The data model of the specification *)

Open Scope Z_scope.

(** A block of the bus: every element is a byte. *)
Definition is_bytes (l : list Z) : Prop := Forall (fun x => 0 <= x <= 255) l.

(** Byte [i] of a block. *)
Definition byte_at (l : list Z) (i : nat) : Z := nth i l 0.

(** Little-endian pair of consecutive bytes, unsigned. *)
Definition le_u16 (lo hi : Z) : Z := lo + 256 * hi.

(** Little-endian pair interpreted as two's complement. *)
Definition le_s16 (lo hi : Z) : Z :=
  if le_u16 lo hi <? 32768 then le_u16 lo hi else le_u16 lo hi - 65536.

(** A single signed 8-bit byte. *)
Definition s8 (x : Z) : Z := if x <? 128 then x else x - 256.

(** The decoding rules of the Calibration Loader, field by field, on the
    bytes of block A and block B. *)
Definition spec_calibration (A B : list Z) : CalibrationSet :=
  {| dig_T1 := le_u16 (byte_at A 0) (byte_at A 1);
     dig_T2 := le_s16 (byte_at A 2) (byte_at A 3);
     dig_T3 := le_s16 (byte_at A 4) (byte_at A 5);
     dig_P1 := le_u16 (byte_at A 6) (byte_at A 7);
     dig_P2 := le_s16 (byte_at A 8) (byte_at A 9);
     dig_P3 := le_s16 (byte_at A 10) (byte_at A 11);
     dig_P4 := le_s16 (byte_at A 12) (byte_at A 13);
     dig_P5 := le_s16 (byte_at A 14) (byte_at A 15);
     dig_P6 := le_s16 (byte_at A 16) (byte_at A 17);
     dig_P7 := le_s16 (byte_at A 18) (byte_at A 19);
     dig_P8 := le_s16 (byte_at A 20) (byte_at A 21);
     dig_P9 := le_s16 (byte_at A 22) (byte_at A 23);
     dig_H1 := byte_at A 25;
     dig_H2 := le_s16 (byte_at B 0) (byte_at B 1);
     dig_H3 := byte_at B 2;
     dig_H4 := Z.lor (Z.shiftl (byte_at B 3) 4) (Z.land (byte_at B 4) 15);
     dig_H5 := Z.lor (Z.shiftl (byte_at B 5) 4)
                     (Z.land (Z.shiftr (byte_at B 4) 4) 15);
     dig_H6 := s8 (byte_at B 6) |}.

Definition u8 (z : Z) : Prop := 0 <= z < 2 ^ 8.
Definition u12 (z : Z) : Prop := 0 <= z < 2 ^ 12.
Definition u16 (z : Z) : Prop := 0 <= z < 2 ^ 16.
Definition u20 (z : Z) : Prop := 0 <= z < 2 ^ 20.
Definition i8 (z : Z) : Prop := - 2 ^ 7 <= z < 2 ^ 7.
Definition i16 (z : Z) : Prop := - 2 ^ 15 <= z < 2 ^ 15.

(** The field widths of a CalibrationSet. *)
Definition wf_calibration (c : CalibrationSet) : Prop :=
  (u16 c.(dig_T1) /\ i16 c.(dig_T2) /\ i16 c.(dig_T3)) /\
  (u16 c.(dig_P1) /\ i16 c.(dig_P2) /\ i16 c.(dig_P3) /\ i16 c.(dig_P4) /\
   i16 c.(dig_P5) /\ i16 c.(dig_P6) /\ i16 c.(dig_P7) /\ i16 c.(dig_P8) /\
   i16 c.(dig_P9)) /\
  (u8 c.(dig_H1) /\ i16 c.(dig_H2) /\ u8 c.(dig_H3) /\ u12 c.(dig_H4) /\
   u12 c.(dig_H5) /\ i8 c.(dig_H6)).

(** The field widths of a RawSample. *)
Definition wf_sample (s : RawSample) : Prop :=
  u20 s.(raw_pressure) /\ u20 s.(raw_temp) /\ u16 s.(raw_humidity).

(** ** The Compensation Engine of the specification *)

(** The formulas of the temperature step, on the coefficients and the raw
    temperature converted to floats. *)
Definition spec_temperature_var1 (cal : CalibrationSet) (raw_t : Z) : float :=
  ((PyFloat.nearest raw_t / 16384.0 - PyFloat.nearest cal.(dig_T1) / 1024.0)
   * PyFloat.nearest cal.(dig_T2))%float.

Definition spec_temperature_base (cal : CalibrationSet) (raw_t : Z) : float :=
  (PyFloat.nearest raw_t / 131072.0 - PyFloat.nearest cal.(dig_T1) / 8192.0)%float.

(** [t_fine = var1 + var2] with [var2 = square * t3], and the three
    results computed from it. *)
Definition spec_compensate (libm_pow : float -> float -> float)
    (cal : CalibrationSet) (s : RawSample) : result Reading :=
  square <- float_pow libm_pow (spec_temperature_base cal s.(raw_temp)) 2.0 ;;
  let var1 := spec_temperature_var1 cal s.(raw_temp) in
  let var2 := (square * PyFloat.nearest cal.(dig_T3))%float in
  let t_fine := (var1 + var2)%float in
  p <- compensate_pressure cal s.(raw_pressure) t_fine ;;
  h <- compensate_humidity cal s.(raw_humidity) t_fine ;;
  Ok {| temperature := (t_fine / 5120.0)%float; humidity := h; pressure := p |}.

(** ** The unrounded results

    The three steps of the engine as expressions of binary64 operations
    alone, on the coefficients and raw counts converted to floats: no
    decimal rounding takes part in them. *)

Definition unrounded_t_fine (cal : CalibrationSet) (raw_t : Z) (square : float)
    : float :=
  (spec_temperature_var1 cal raw_t + square * PyFloat.nearest cal.(dig_T3))%float.

(** The two terms on which the pressure polynomial rests; the first is
    its denominator. *)
Definition unrounded_pressure_terms (cal : CalibrationSet) (t_fine : float)
    : float * float :=
  let p1 := PyFloat.nearest cal.(dig_P1) in
  let p2 := PyFloat.nearest cal.(dig_P2) in
  let p3 := PyFloat.nearest cal.(dig_P3) in
  let p4 := PyFloat.nearest cal.(dig_P4) in
  let p5 := PyFloat.nearest cal.(dig_P5) in
  let p6 := PyFloat.nearest cal.(dig_P6) in
  let a := (t_fine / 2.0 - 64000.0)%float in
  let b := (a * a * p6 / 32768.0)%float in
  let b := (b + a * p5 * 2.0)%float in
  let b := (b / 4.0 + p4 * 65536.0)%float in
  let a := ((p3 * a * a / 524288.0 + p2 * a) / 524288.0)%float in
  let a := ((1.0 + a / 32768.0) * p1)%float in
  (a, b).

Definition unrounded_pressure_polynomial (cal : CalibrationSet) (raw_p : Z)
    (a b : float) : float :=
  let p7 := PyFloat.nearest cal.(dig_P7) in
  let p8 := PyFloat.nearest cal.(dig_P8) in
  let p9 := PyFloat.nearest cal.(dig_P9) in
  let p := (1048576.0 - PyFloat.nearest raw_p)%float in
  let p := ((p - b / 4096.0) * 6250.0 / a)%float in
  let c := (p9 * p * p / 2147483648.0)%float in
  let d := (p * p8 / 32768.0)%float in
  ((p + (c + d + p7) / 16.0) / 100.0)%float.

Definition unrounded_pressure (cal : CalibrationSet) (raw_p : Z) (t_fine : float)
    : num :=
  let (a, b) := unrounded_pressure_terms cal t_fine in
  if (a =? 0)%float then I 0 else F (unrounded_pressure_polynomial cal raw_p a b).

Definition unrounded_humidity_polynomial (cal : CalibrationSet) (raw_h : Z)
    (h : float) : float :=
  let h1 := PyFloat.nearest cal.(dig_H1) in
  let h2 := PyFloat.nearest cal.(dig_H2) in
  let h3 := PyFloat.nearest cal.(dig_H3) in
  let h4 := PyFloat.nearest cal.(dig_H4) in
  let h5 := PyFloat.nearest cal.(dig_H5) in
  let h6 := PyFloat.nearest cal.(dig_H6) in
  let x := ((PyFloat.nearest raw_h - (h4 * 64.0 + h5 / 16384.0 * h))
            * (h2 / 65536.0
               * (1.0 + h6 / 67108864.0 * h * (1.0 + h3 / 67108864.0 * h))))%float in
  (x * (1.0 - h1 * x / 524288.0))%float.

Definition unrounded_humidity (cal : CalibrationSet) (raw_h : Z) (t_fine : float)
    : num :=
  let h := (t_fine - 76800.0)%float in
  if (h =? 0)%float then I 0
  else
    let x := unrounded_humidity_polynomial cal raw_h h in
    F (if (x <? 100.0)%float
       then (if (0.0 <? x)%float then x else 0.0%float)
       else 100.0%float).

(** The reading before the report, given the square of the temperature
    step. *)
Definition unrounded_reading (cal : CalibrationSet) (s : RawSample)
    (square : float) : Reading :=
  let t_fine := unrounded_t_fine cal s.(raw_temp) square in
  {| temperature := (t_fine / 5120.0)%float;
     humidity := unrounded_humidity cal s.(raw_humidity) t_fine;
     pressure := unrounded_pressure cal s.(raw_pressure) t_fine |}.

(** A percentage: a value of the closed interval [0, 100]. *)
Definition in_percent_range (v : num) : Prop :=
  match v with
  | I z => 0 <= z <= 100
  | F f => (0 <=? f)%float = true /\ (f <=? 100)%float = true
  end.

(** The sample of the datasheet's worked example and its report. *)
Definition datasheet_sample : RawSample :=
  {| raw_pressure := 415148; raw_temp := 519888; raw_humidity := 32768 |}.

Definition datasheet_report : Report :=
  {| report_temperature := 0x1.919999999999ap+4;      (* 25.1 *)
     report_humidity := F 0x1.139999999999ap+6;       (* 68.9 *)
     report_pressure := F 0x1.f743d70a3d70ap+9 |}.    (* 1006.53 *)

(** The two exceptions a block of bytes can make the decoder raise. *)
Definition raises_on_length {A : Type} (m : result A) : Prop :=
  exists e, m = Err e /\ (e = IndexError \/ e = StructError).

(** The only exception [m] can raise is [OverflowError]; in particular it
    raises no [ZeroDivisionError]. *)
Definition only_overflow {A : Type} (m : result A) : Prop :=
  forall e, m = Err e -> e = OverflowError.

(** ** Range checks of the decoder *)

(** The elements of the two blocks that reach [bytes(...)], and so are
    checked to be bytes: A[2..5], A[8..23], B[0], B[1] and B[6]. *)
Definition struct_bytes_ok (A B : list Z) : bool :=
  forallb (fun i => Py.is_byte (byte_at A i)) (seq 2 4 ++ seq 8 16)
  && forallb (fun i => Py.is_byte (byte_at B i)) [0; 1; 6]%nat.

(** ** The I2C bus and the two readers that use it

    [read_bme280.py] and [read_bh1750.py] open the bus, talk to the sensor
    inside [try], and close the bus in [finally].  A run is the list of the
    calls made, in order, with its outcome; how the bus answers a call may
    depend on the calls made before it. *)

Module Bus.

(** The calls of a reader; [O] is the type of what it prints. *)
Inductive event (O : Type) : Type :=
| Open (bus_num : Z)                          (* smbus2.SMBus(bus_num) *)
| ReadBlock (address register length : Z)     (* bus.read_i2c_block_data *)
| WriteByte (address value : Z)               (* bus.write_byte *)
| WriteByteData (address register value : Z)  (* bus.write_byte_data *)
| Sleep (seconds : float)                     (* time.sleep *)
| Print (o : O)                               (* print(json.dumps(...)) *)
| Close.                                      (* bus.close() *)

Arguments Open {O} bus_num.
Arguments ReadBlock {O} address register length.
Arguments WriteByte {O} address value.
Arguments WriteByteData {O} address register value.
Arguments Sleep {O} seconds.
Arguments Print {O} o.
Arguments Close {O}.

(** What a run can raise: an error of the bus, or an exception of the
    computation. *)
Inductive raised : Type :=
| OSError
| Python (e : exn).

Inductive outcome (A : Type) : Type :=
| Done (a : A)
| Raised (r : raised).

Arguments Done {A} a.
Arguments Raised {A} r.

Section Run.

Variable O : Type.

(** The bus: whether it opens, what a block read answers after the calls
    [h] (nothing on an I/O error), and whether the write that ends the
    calls [h] is acknowledged. *)
Variable opens : Z -> bool.
Variable answers : list (event O) -> Z -> Z -> Z -> option (list Z).
Variable accepts : list (event O) -> bool.

(** A computation takes the calls made so far and returns its outcome with
    the calls extended. *)
Definition io (A : Type) : Type := list (event O) -> outcome A * list (event O).

Definition ret {A : Type} (a : A) : io A := fun h => (Done a, h).

Definition io_bind {A B : Type} (m : io A) (k : A -> io B) : io B :=
  fun h =>
    match m h with
    | (Done a, h') => k a h'
    | (Raised r, h') => (Raised r, h')
    end.

(** [try: body finally: cleanup], for a cleanup that raises nothing. *)
Definition finally {A : Type} (body : io A) (cleanup : io unit) : io A :=
  fun h =>
    let (o, h1) := body h in
    let (_, h2) := cleanup h1 in
    (o, h2).

Definition lift {A : Type} (m : result A) : io A :=
  fun h =>
    match m with
    | Ok a => (Done a, h)
    | Err e => (Raised (Python e), h)
    end.

Definition open (bus_num : Z) : io unit :=
  fun h =>
    let h' := h ++ [Open bus_num] in
    if opens bus_num then (Done tt, h') else (Raised OSError, h').

Definition read_i2c_block_data (address register length : Z) : io (list Z) :=
  fun h =>
    let h' := h ++ [ReadBlock address register length] in
    match answers h address register length with
    | Some data => (Done data, h')
    | None => (Raised OSError, h')
    end.

Definition write_byte (address value : Z) : io unit :=
  fun h =>
    let h' := h ++ [WriteByte address value] in
    if accepts h' then (Done tt, h') else (Raised OSError, h').

Definition write_byte_data (address register value : Z) : io unit :=
  fun h =>
    let h' := h ++ [WriteByteData address register value] in
    if accepts h' then (Done tt, h') else (Raised OSError, h').

Definition sleep (seconds : float) : io unit :=
  fun h => (Done tt, h ++ [Sleep seconds]).

Definition print (o : O) : io unit :=
  fun h => (Done tt, h ++ [Print o]).

Definition close : io unit :=
  fun h => (Done tt, h ++ [Close]).

End Run.

Arguments ret {O A} a.
Arguments open {O} opens bus_num.
Arguments read_i2c_block_data {O} answers address register length.
Arguments write_byte {O} accepts address value.
Arguments write_byte_data {O} accepts address register value.
Arguments io_bind {O A B} m k.
Arguments finally {O A} body cleanup.
Arguments lift {O A} m.
Arguments sleep {O} seconds.
Arguments print {O} o.
Arguments close {O}.

End Bus.

Declare Scope io_scope.
Delimit Scope io_scope with io.
Notation "x <- m ;; k" := (Bus.io_bind m (fun x => k))
  (at level 61, m at next level, right associativity) : io_scope.

(** *** [read_bme280.py], lines 21-101 *)

Section BME280Run.

Variable libm_pow : float -> float -> float.
Variable opens : Z -> bool.
Variable answers : list (Bus.event Report) -> Z -> Z -> Z -> option (list Z).
Variable accepts : list (Bus.event Report) -> bool.

Definition bme280_run (bus_num address : Z) : Bus.io Report unit :=
  (_ <- Bus.open opens bus_num ;;
   Bus.finally
     (cal1 <- Bus.read_i2c_block_data answers address 0x88 26 ;;
      cal2 <- Bus.read_i2c_block_data answers address 0xE1 7 ;;
      cal <- Bus.lift (decode_calibration cal1 cal2) ;;
      _ <- Bus.write_byte_data accepts address 0xF2 0x01 ;;
      _ <- Bus.write_byte_data accepts address 0xF4 0x25 ;;
      _ <- Bus.sleep 0x1.999999999999ap-5 ;;          (* 0.05 *)
      raw <- Bus.read_i2c_block_data answers address 0xF7 8 ;;
      sample <- Bus.lift (read_raw raw) ;;
      r <- Bus.lift (compensate libm_pow cal sample) ;;
      rep <- Bus.lift (report r) ;;
      Bus.print rep)
     Bus.close)%io.

End BME280Run.

(** *** [read_bh1750.py] *)

Module BH1750.

(** Line 29: [(data[0] << 8 | data[1]) / 1.2]. *)
Definition lux_of (data : list Z) : result float :=
  d0 <- Py.index data 0 ;;
  d1 <- Py.index data 1 ;;
  (int (Z.lor (Z.shiftl d0 8) d1) / flt 0x1.3333333333333p+0)%pyexpr.  (* 1.2 *)

(** Lines 29-31: the value printed under the key [lux]. *)
Definition reading (data : list Z) : result float :=
  lux <- lux_of data ;;
  PyFloat.round lux 1.

Section Run.

Variable opens : Z -> bool.
Variable answers : list (Bus.event float) -> Z -> Z -> Z -> option (list Z).
Variable accepts : list (Bus.event float) -> bool.

(** Lines 20-33. *)
Definition run (bus_num address : Z) : Bus.io float unit :=
  (_ <- Bus.open opens bus_num ;;
   Bus.finally
     (_ <- Bus.write_byte accepts address 0x01 ;;
      _ <- Bus.write_byte accepts address 0x20 ;;
      _ <- Bus.sleep 0x1.70a3d70a3d70ap-3 ;;          (* 0.18 *)
      data <- Bus.read_i2c_block_data answers address 0x00 2 ;;
      lux <- Bus.lift (lux_of data) ;;
      rounded <- Bus.lift (PyFloat.round lux 1) ;;
      Bus.print rounded)
     Bus.close)%io.

End Run.

End BH1750.

(** A bus that answers the worked example of the datasheet. *)
Definition datasheet_answers (h : list (Bus.event Report)) (address register length : Z)
    : option (list Z) :=
  if register =? 0x88 then Some datasheet_cal1
  else if register =? 0xE1 then Some datasheet_cal2
  else if register =? 0xF7 then Some datasheet_raw
  else None.

(** The [n] integers from [z] on. *)
Fixpoint count_up (n : nat) (z : Z) : list Z :=
  match n with
  | O => []
  | S n' => z :: count_up n' (z + 1)
  end.

(** The counts [0 .. 65534] of a two-byte reading that have a next count. *)
Definition counts16 : list Z := count_up (Z.to_nat 65535) 0.

(** The lux value of line 29 for a count, and the check that it is not
    negative and strictly below the value of the next count, itself at
    most 54612.5. *)
Definition lux_of_count (raw : Z) : float :=
  (PyFloat.nearest raw / 0x1.3333333333333p+0)%float.   (* 1.2 *)

Definition lux_step_ok (raw : Z) : bool :=
  (0 <=? lux_of_count raw)%float
  && (lux_of_count raw <? lux_of_count (raw + 1))%float
  && (lux_of_count (raw + 1) <=? 0x1.aaa9p+15)%float.   (* 54612.5 *)

(** ** [read_touch.py] *)

Module Touch.

(** The dictionary a reader returns: the touched channels and their raw
    values, or [None]. *)
Record reading : Type := {
  channels : list Z;
  values : option (list Z)
}.

(** What a call into a driver does: it returns, or it raises, either the
    [ImportError] of a module that is not installed or any other
    exception. *)
Inductive raised : Type :=
| ImportError
| DriverError.

Inductive attempt (A : Type) : Type :=
| Returns (a : A)
| Raises (e : raised).
Arguments Returns {A} a.
Arguments Raises {A} e.

Section Readers.

(** The MPR121 driver: the truth value of [mpr121[i].value] and the value
    of [mpr121[i].raw_value], each read at most once per channel. *)
Variable touched : Z -> bool.
Variable raw_value : Z -> Z.

(** Lines 52-54: the body of the loop on the two lists. *)
Definition visit (lists : list Z * list Z) (i : Z) : list Z * list Z :=
  let (channels, values) := lists in
  if touched i then (channels ++ [i], values ++ [raw_value i]) else lists.

(** [values if values else None]: the empty list is false. *)
Definition or_none (values : list Z) : option (list Z) :=
  match values with
  | [] => None
  | _ => Some values
  end.

(** Lines 48-56; [range(12)] is [count_up 12 0]. *)
Definition read_mpr121 : reading :=
  let (channels, values) := fold_left visit (count_up 12 0) ([], []) in
  {| channels := channels; values := or_none values |}.

(** The exception of the first import, constructor or channel read of
    lines 41-54 that raises, if any. *)
Variable mpr121_raises : option raised.

(** Lines 39-56 on that driver: nothing is returned when a call raised. *)
Definition mpr121_session : attempt reading :=
  match mpr121_raises with
  | Some e => Raises e
  | None => Returns read_mpr121
  end.

(** The TTP223 backends.  [gpio_input] is lines 23-28: the import of
    [RPi.GPIO], the set-up calls and the level read on the pin.
    [is_pressed] is lines 32-35: the import of [gpiozero], the button of
    the pin, its state and its release. *)
Variable gpio_input : Z -> attempt Z.
Variable is_pressed : Z -> attempt bool.

(** Lines 22-37: [except ImportError] catches that exception alone, and
    nothing guards the fallback. *)
Definition read_ttp223 (gpio_pin : Z) : attempt reading :=
  match gpio_input gpio_pin with
  | Returns touched =>
      let channels := if negb (touched =? 0) then [0] else [] in
      Returns {| channels := channels; values := None |}
  | Raises ImportError =>
      match is_pressed gpio_pin with
      | Returns touched =>
          let channels := if touched then [0] else [] in
          Returns {| channels := channels; values := None |}
      | Raises e => Raises e
      end
  | Raises e => Raises e
  end.

(** What [main] does: print a reading, print an error on the standard
    error and exit with status 1, or let the exception of a reader
    through, nothing being printed. *)
Inductive outcome : Type :=
| Printed (r : reading)
| ErrorExit (message : String.string)
| Raised (e : raised).

(** Lines 64-72, after the arguments are parsed. *)
Definition main (sensor_type : String.string) (gpio_pin : Z) : outcome :=
  if String.eqb sensor_type "ttp223"%string then
    match read_ttp223 gpio_pin with
    | Returns result => Printed result
    | Raises e => Raised e
    end
  else if String.eqb sensor_type "mpr121"%string then
    match mpr121_session with
    | Returns result => Printed result
    | Raises e => Raised e
    end
  else
    ErrorExit (String.append "Unknown sensor type: "%string sensor_type).

End Readers.

End Touch.

(** ** [read_dht22.py] *)

Module DHT22.

(** [board.Dn] *)
Inductive board_pin : Type := D (n : Z).

(** Lines 21-27: the dictionary from GPIO numbers to board pins. *)
Definition pin_map : list (Z * board_pin) :=
  [(4, D 4); (5, D 5); (6, D 6); (12, D 12);
   (13, D 13); (16, D 16); (17, D 17); (18, D 18);
   (19, D 19); (20, D 20); (21, D 21); (22, D 22);
   (23, D 23); (24, D 24); (25, D 25); (26, D 26);
   (27, D 27)].

(** [d.get(k)] on a dictionary whose keys are distinct. *)
Fixpoint get (d : list (Z * board_pin)) (k : Z) : option board_pin :=
  match d with
  | [] => None
  | (k', v) :: t => if k =? k' then Some v else get t k
  end.

(** The two error messages of the reader. *)
Inductive message : Type :=
| UnsupportedPin (gpio_pin : Z)   (* "Unsupported GPIO pin: <gpio_pin>" *)
| NullReading.                    (* "null reading" *)

(** The calls of a run, in order. *)
Inductive event : Type :=
| Create (pin : board_pin)                    (* adafruit_dht.DHT22(pin) *)
| ReadTemperature                             (* sensor.temperature *)
| ReadHumidity                                (* sensor.humidity *)
| PrintOut (temperature humidity : float)     (* print(json.dumps(...)) *)
| PrintErr (m : message)                      (* print(..., file=sys.stderr) *)
| SensorExit.                                 (* sensor.exit() *)

Inductive status : Type :=
| Returned
| SysExit (code : Z)
| RuntimeError            (* raised by the driver on a failed reading *)
| Python (e : exn).

Section Run.

(** The driver: each property raises (nothing), returns [None], or returns
    a float. *)
Variable temperature_read : option (option float).
Variable humidity_read : option (option float).

(** Lines 36-45, the body of [try]. *)
Definition measure : status * list event :=
  match temperature_read with
  | None => (RuntimeError, [ReadTemperature])
  | Some temperature =>
      match humidity_read with
      | None => (RuntimeError, [ReadTemperature; ReadHumidity])
      | Some humidity =>
          match temperature, humidity with
          | Some t, Some h =>
              match PyFloat.round t 1 with
              | Err e => (Python e, [ReadTemperature; ReadHumidity])
              | Ok rt =>
                  match PyFloat.round h 1 with
                  | Err e => (Python e, [ReadTemperature; ReadHumidity])
                  | Ok rh =>
                      (Returned, [ReadTemperature; ReadHumidity; PrintOut rt rh])
                  end
              end
          | _, _ =>
              (SysExit 1, [ReadTemperature; ReadHumidity; PrintErr NullReading])
          end
      end
  end.

(** Lines 29-47: [sensor.exit()] runs in [finally]. *)
Definition run (gpio_pin : Z) : status * list event :=
  match get pin_map gpio_pin with
  | None => (SysExit 1, [PrintErr (UnsupportedPin gpio_pin)])
  | Some pin =>
      let (st, calls) := measure in
      (st, Create pin :: calls ++ [SensorExit])
  end.

End Run.

(** The GPIO numbers of the table. *)
Definition supported (gpio_pin : Z) : Prop :=
  4 <= gpio_pin <= 6 \/ 12 <= gpio_pin <= 13 \/ 16 <= gpio_pin <= 27.

End DHT22.

(** ** [read_hcsr04.py] *)

Module HCSR04.

(** [a < b] on an [int] and a [float] compares the exact values; the
    integers compared here are exactly representable. *)
Definition num_lt (a b : num) : bool :=
  match a, b with
  | I x, I y => x <? y
  | I x, F g => (PyFloat.nearest x <? g)%float
  | F f, I y => (f <? PyFloat.nearest y)%float
  | F f, F g => (f <? g)%float
  end.

(** [min(a, b)] and [max(a, b)] keep the first argument unless the second
    is strictly below (above) it. *)
Definition min2 (a b : num) : num := if num_lt b a then b else a.
Definition max2 (a b : num) : num := if num_lt a b then b else a.

(** Lines 51-56. *)
Definition distance_of (pulse_start pulse_end : float) : result num :=
  pulse_duration <- (flt pulse_end - flt pulse_start)%pyexpr ;;
  distance <- (flt pulse_duration * int 17150)%pyexpr ;;
  distance <- PyFloat.round distance 1 ;;
  Ok (max2 (I 2) (min2 (I 400) (F distance))).

(** What the reader prints under the key [distanceCm], or raises. *)
Inductive outcome : Type :=
| Printed (distance : num)
| Raised (e : exn).

Section Run.

(** The environment: the value of the [k]-th call of [time.time()] and of
    the [k]-th call of [GPIO.input(echo_pin)]. *)
Variable clock : nat -> float.
Variable echo : nat -> Z.

(** How a wait ends: the echo line left the level waited on, with the last
    time read and the numbers of calls made so far, or the time read
    passed the timeout. *)
Inductive waited : Type :=
| Edge (pulse : float) (clock_calls echo_calls : nat)
| TimedOut.

(** Lines 36-40 with [level = 0] and lines 44-48 with [level = 1]; [None]
    when the loop has not ended after [fuel] tests. *)
Fixpoint wait (level : Z) (timeout pulse : float) (clock_calls echo_calls : nat)
    (fuel : nat) : option waited :=
  match fuel with
  | O => None
  | S fuel' =>
      if echo echo_calls =? level then
        let pulse' := clock clock_calls in
        if (timeout <? pulse')%float then Some TimedOut
        else wait level timeout pulse' (S clock_calls) (S echo_calls) fuel'
      else Some (Edge pulse clock_calls (S echo_calls))
  end.

(** Lines 33-58, the [RPi.GPIO] path. *)
Definition measure (fuel : nat) : option outcome :=
  let timeout := (clock 0 + 0x1.999999999999ap-4)%float in       (* 0.1 *)
  let pulse_start := clock 1 in
  match wait 0 timeout pulse_start 2 0 fuel with
  | None => None
  | Some TimedOut => Some (Printed (I 999))
  | Some (Edge pulse_start clock_calls echo_calls) =>
      let pulse_end := clock clock_calls in
      let timeout := (clock (S clock_calls) + 0x1.999999999999ap-4)%float in
      match wait 1 timeout pulse_end (S (S clock_calls)) echo_calls fuel with
      | None => None
      | Some TimedOut => Some (Printed (I 999))
      | Some (Edge pulse_end _ _) =>
          match distance_of pulse_start pulse_end with
          | Ok distance => Some (Printed distance)
          | Err e => Some (Raised e)
          end
      end
  end.

(** Lines 62-68, the [gpiozero] path taken on [ImportError]. *)
Definition fallback (sensor_distance : float) : outcome :=
  match (distance <- (flt sensor_distance * int 100)%pyexpr ;;
         PyFloat.round distance 1) with
  | Ok distance => Printed (F distance)
  | Err e => Raised e
  end.

Definition main (rpi_gpio_imports : bool) (sensor_distance : float) (fuel : nat)
    : option outcome :=
  if rpi_gpio_imports then measure fuel else Some (fallback sensor_distance).

End Run.

(** A distance of the clamped range: 2, 400, or a float strictly between. *)
Definition clamped (v : num) : Prop :=
  v = I 2 \/ v = I 400 \/
  exists d, v = F d /\ (2 <? d)%float = true /\ (d <? 400)%float = true.

End HCSR04.

(** ** Auxiliary orders on binary64 fields *)

(** The comparison of two finite floats of the same sign: exponents
    first, then mantissas. *)
Definition lex (e1 : Z) (m1 : positive) (e2 : Z) (m2 : positive) : comparison :=
  match e1 ?= e2 with
  | Lt => Lt
  | Gt => Gt
  | Eq => Pos.compare_cont Eq m1 m2
  end.

(** Composes two comparisons neither of which is [Gt]. *)
Definition then_le (c1 c2 : comparison) : comparison :=
  match c1, c2 with
  | Eq, Eq => Eq
  | _, _ => Lt
  end.

(** * Properties *)

(** ** Bytes and bit fields *)

Lemma lor_disjoint (n a b : Z) :
  0 <= n -> 0 <= a < 2 ^ n -> Z.lor a (Z.shiftl b n) = a + b * 2 ^ n.
Proof.
  intros Hn Ha.
  rewrite Z.shiftl_mul_pow2 by assumption.
  rewrite <- Z.lxor_lor, <- Z.add_nocarry_lxor; trivial;
    apply Z.bits_inj'; intros i Hi; rewrite Z.land_spec, Z.bits_0;
    destruct (Z.lt_ge_cases i n) as [Hlt | Hge].
  all: try (rewrite Z.mul_pow2_bits_low by assumption; apply andb_false_r).
  all: destruct (Z.eq_dec a 0) as [-> | Hnz];
    [ now rewrite Z.bits_0
    | rewrite (Z.bits_above_log2 a i); trivial; try lia;
      apply Z.log2_lt_pow2; try lia;
      apply Z.lt_le_trans with (2 ^ n); try lia;
      apply Z.pow_le_mono_r; lia ].
Qed.

Lemma land_15 (a : Z) : Z.land a 15 = a mod 16.
Proof. change 15 with (Z.ones 4). now rewrite Z.land_ones. Qed.

Lemma shiftr_4 (a : Z) : Z.shiftr a 4 = a / 16.
Proof. now rewrite Z.shiftr_div_pow2. Qed.

Lemma is_byte_true (x : Z) : 0 <= x <= 255 -> Py.is_byte x = true.
Proof.
  intros H. unfold Py.is_byte.
  apply andb_true_intro; split; [apply Z.leb_le | apply Z.ltb_lt]; lia.
Qed.

Lemma is_bytes_at (l : list Z) (i : nat) :
  is_bytes l -> (i < length l)%nat -> 0 <= byte_at l i <= 255.
Proof.
  intros Hl Hi. unfold is_bytes in Hl. rewrite Forall_forall in Hl.
  apply Hl, nth_In, Hi.
Qed.

(** Records the range of every byte read in the goal. *)
Ltac note_bytes :=
  repeat match goal with
  | |- context [byte_at ?l ?i] =>
      lazymatch goal with
      | _ : 0 <= byte_at l i <= 255 |- _ => fail
      | _ => assert (0 <= byte_at l i <= 255)
               by (apply is_bytes_at; [assumption | lia])
      end
  end.

(** ** Indexing, slicing and unpacking *)

Lemma index_in_range (l : list Z) (i : nat) :
  (i < length l)%nat -> Py.index l i = Ok (byte_at l i).
Proof.
  intros Hi. unfold Py.index, byte_at.
  now rewrite (nth_error_nth' l 0 Hi).
Qed.

Lemma index_out_of_range (l : list Z) (i : nat) :
  (length l <= i)%nat -> Py.index l i = Err IndexError.
Proof.
  intros Hi. unfold Py.index.
  now rewrite (proj2 (nth_error_None l i) Hi).
Qed.

Lemma slice_pair (l : list Z) (i : nat) :
  (S i < length l)%nat ->
  Py.slice l i (S (S i)) = [byte_at l i; byte_at l (S i)].
Proof.
  unfold Py.slice, byte_at. replace (S (S i) - i)%nat with 2%nat by lia.
  revert l. induction i as [| i IH]; intros l Hi.
  - destruct l as [| a [| b l]]; simpl in *; try lia. reflexivity.
  - destruct l as [| a l]; simpl in *; try lia. apply IH. lia.
Qed.

Lemma slice_short (l : list Z) (i : nat) :
  (length l <= S i)%nat -> length (Py.slice l i (S (S i))) <> 2%nat.
Proof.
  intros Hi. unfold Py.slice.
  rewrite length_firstn, length_skipn. lia.
Qed.

Lemma signed16_at_in_range (l : list Z) (i : nat) :
  is_bytes l -> (S i < length l)%nat ->
  signed16_at l i (S (S i)) = Ok (le_s16 (byte_at l i) (byte_at l (S i))).
Proof.
  intros Hl Hi. unfold signed16_at, Py.bytes.
  rewrite (slice_pair l i Hi). simpl forallb.
  rewrite !is_byte_true by (apply is_bytes_at; trivial; lia).
  reflexivity.
Qed.

Lemma bytes_of_bytes (l : list Z) : is_bytes l -> Py.bytes l = Ok l.
Proof.
  intros Hl. unfold Py.bytes.
  replace (forallb Py.is_byte l) with true; trivial.
  symmetry. apply forallb_forall. intros x Hx.
  unfold is_bytes in Hl. rewrite Forall_forall in Hl.
  apply is_byte_true, Hl, Hx.
Qed.

Lemma is_bytes_slice (l : list Z) (i j : nat) :
  is_bytes l -> is_bytes (Py.slice l i j).
Proof.
  unfold is_bytes, Py.slice. rewrite !Forall_forall. intros Hl x Hx.
  apply Hl. apply In_nth_error in Hx. destruct Hx as [k Hk].
  rewrite nth_error_firstn in Hk.
  destruct (k <? j - i)%nat; [| discriminate].
  rewrite nth_error_skipn in Hk. eapply nth_error_In, Hk.
Qed.

Lemma signed16_at_out_of_range (l : list Z) (i : nat) :
  is_bytes l -> (length l <= S i)%nat ->
  signed16_at l i (S (S i)) = Err StructError.
Proof.
  intros Hl Hi. unfold signed16_at.
  rewrite (bytes_of_bytes _ (is_bytes_slice l i (S (S i)) Hl)). simpl.
  pose proof (slice_short l i Hi) as Hlen.
  destruct (Py.slice l i (S (S i))) as [| a [| b [| c r]]]; simpl in *;
    trivial; lia.
Qed.

(** On blocks of bytes that are long enough the decoder returns the
    coefficients of the decoding rules. *)
Lemma decode_calibration_ok (cal1 cal2 : list Z) :
  is_bytes cal1 -> is_bytes cal2 ->
  (26 <= length cal1)%nat -> (7 <= length cal2)%nat ->
  decode_calibration cal1 cal2 = Ok (spec_calibration cal1 cal2).
Proof.
  intros H1 H2 L1 L2. unfold decode_calibration.
  rewrite !index_in_range by lia.
  rewrite !signed16_at_in_range by (trivial; lia).
  cbn [bind].
  rewrite bytes_of_bytes
    by (constructor; [apply is_bytes_at; trivial; lia | constructor]).
  cbn [bind Py.unpack_b]. unfold spec_calibration, s8. f_equal.
  f_equal; unfold le_u16; note_bytes; rewrite lor_disjoint; lia.
Qed.

(** ** Field values and widths *)

Lemma le_u16_range (lo hi : Z) :
  0 <= lo <= 255 -> 0 <= hi <= 255 -> u16 (le_u16 lo hi).
Proof. unfold u16, le_u16. lia. Qed.

Lemma le_s16_range (lo hi : Z) :
  0 <= lo <= 255 -> 0 <= hi <= 255 -> i16 (le_s16 lo hi).
Proof.
  intros Hlo Hhi. unfold i16, le_s16, le_u16.
  destruct (Z.ltb_spec (lo + 256 * hi) 32768); lia.
Qed.

Lemma s8_range (x : Z) : 0 <= x <= 255 -> i8 (s8 x).
Proof. intros Hx. unfold i8, s8. destruct (Z.ltb_spec x 128); lia. Qed.

(** The overlapping nibbles: [b4]'s low nibble below [b3]. *)
Lemma h4_value (b3 b4 : Z) :
  0 <= b4 ->
  Z.lor (Z.shiftl b3 4) (Z.land b4 15) = b3 * 16 + b4 mod 16.
Proof.
  intros H4. rewrite land_15, Z.lor_comm, lor_disjoint; try lia.
  apply Z.mod_pos_bound. lia.
Qed.

(** The overlapping nibbles: [b4]'s high nibble below [b5]. *)
Lemma h5_value (b5 b4 : Z) :
  0 <= b4 <= 255 ->
  Z.lor (Z.shiftl b5 4) (Z.land (Z.shiftr b4 4) 15) = b5 * 16 + b4 / 16.
Proof.
  intros H4. rewrite land_15, shiftr_4, Z.lor_comm.
  assert (0 <= b4 / 16 < 16)
    by (split; [apply Z.div_pos | apply Z.div_lt_upper_bound]; lia).
  rewrite Z.mod_small by assumption.
  rewrite lor_disjoint; lia.
Qed.

Lemma spec_calibration_wf (A B : list Z) :
  is_bytes A -> is_bytes B ->
  (26 <= length A)%nat -> (7 <= length B)%nat ->
  wf_calibration (spec_calibration A B).
Proof.
  intros HA HB LA LB. unfold wf_calibration, spec_calibration.
  cbn [dig_T1 dig_T2 dig_T3 dig_P1 dig_P2 dig_P3 dig_P4 dig_P5 dig_P6 dig_P7
       dig_P8 dig_P9 dig_H1 dig_H2 dig_H3 dig_H4 dig_H5 dig_H6].
  note_bytes.
  repeat split;
    try (apply le_u16_range; assumption);
    try (apply le_s16_range; assumption);
    try (apply s8_range; assumption);
    try (unfold u8; lia).
  - rewrite h4_value by lia.
    pose proof (Z.mod_pos_bound (byte_at B 4) 16). lia.
  - rewrite h4_value by lia.
    pose proof (Z.mod_pos_bound (byte_at B 4) 16). lia.
  - rewrite h5_value by lia.
    assert (0 <= byte_at B 4 / 16) by (apply Z.div_pos; lia). lia.
  - rewrite h5_value by lia.
    assert (byte_at B 4 / 16 < 16) by (apply Z.div_lt_upper_bound; lia). lia.
Qed.

(** ** The Calibration Loader *)

(** C7. On a block A of exactly 26 bytes and a block B of exactly 7 bytes
    the decoder raises nothing: it returns the full CalibrationSet that the
    decoding rules give on bytes 0-23 and 25 of A and 0-6 of B, every field
    within its declared width. *)
Theorem decode_calibration_total (A B : list Z) :
  is_bytes A -> is_bytes B -> length A = 26%nat -> length B = 7%nat ->
  decode_calibration A B = Ok (spec_calibration A B) /\
  wf_calibration (spec_calibration A B).
Proof.
  intros HA HB LA LB. split.
  - apply decode_calibration_ok; trivial; lia.
  - apply spec_calibration_wf; trivial; lia.
Qed.

Lemma decode_calibration_total_witness :
  decode_calibration datasheet_cal1 datasheet_cal2
    = Ok (spec_calibration datasheet_cal1 datasheet_cal2) /\
  wf_calibration (spec_calibration datasheet_cal1 datasheet_cal2).
Proof.
  apply decode_calibration_total; try reflexivity;
    unfold is_bytes, datasheet_cal1, datasheet_cal2;
    repeat (constructor; [lia |]); constructor.
Defined.

(** C3. For every 7-byte block B the decoder computes
    [h4 = (B[3] << 4) | (B[4] & 0x0F)] and
    [h5 = (B[5] << 4) | ((B[4] >> 4) & 0x0F)]: the low nibble of [B[4]] is
    the low nibble of [h4], its high nibble the low nibble of [h5], and
    both are 12-bit unsigned values. *)
Theorem h4_h5_overlapping_nibbles (A B : list Z) :
  is_bytes A -> is_bytes B -> length A = 26%nat -> length B = 7%nat ->
  exists c, decode_calibration A B = Ok c /\
    c.(dig_H4) = Z.lor (Z.shiftl (byte_at B 3) 4) (Z.land (byte_at B 4) 15) /\
    c.(dig_H5) = Z.lor (Z.shiftl (byte_at B 5) 4)
                       (Z.land (Z.shiftr (byte_at B 4) 4) 15) /\
    (c.(dig_H4) mod 16 = byte_at B 4 mod 16 /\ c.(dig_H4) / 16 = byte_at B 3) /\
    (c.(dig_H5) mod 16 = byte_at B 4 / 16 /\ c.(dig_H5) / 16 = byte_at B 5) /\
    0 <= c.(dig_H4) <= 4095 /\ 0 <= c.(dig_H5) <= 4095.
Proof.
  intros HA HB LA LB. exists (spec_calibration A B).
  split; [apply decode_calibration_ok; trivial; lia |].
  cbn [spec_calibration dig_H4 dig_H5]. note_bytes.
  rewrite h4_value, h5_value by lia.
  pose proof (Z.mod_pos_bound (byte_at B 4) 16 ltac:(lia)) as Hlo.
  assert (0 <= byte_at B 4 / 16 < 16) as Hhi
    by (split; [apply Z.div_pos | apply Z.div_lt_upper_bound]; lia).
  repeat split; trivial; try lia.
  - rewrite Z.add_comm, Z.mod_add by lia. apply Z.mod_mod. lia.
  - rewrite Z.add_comm, Z.div_add by lia. rewrite Z.div_small; lia.
  - rewrite Z.add_comm, Z.mod_add by lia. apply Z.mod_small. lia.
  - rewrite Z.add_comm, Z.div_add by lia. rewrite Z.div_small; lia.
Qed.

Lemma datasheet_blocks_are_bytes :
  is_bytes datasheet_cal1 /\ is_bytes datasheet_cal2 /\ is_bytes datasheet_raw.
Proof.
  unfold is_bytes, datasheet_cal1, datasheet_cal2, datasheet_raw.
  repeat split; repeat (constructor; [lia |]); constructor.
Qed.

Lemma h4_h5_overlapping_nibbles_witness :
  exists c, decode_calibration datasheet_cal1 datasheet_cal2 = Ok c /\
    c.(dig_H4) = Z.lor (Z.shiftl 0x13 4) (Z.land 0x2D 15) /\
    c.(dig_H5) = Z.lor (Z.shiftl 0x03 4) (Z.land (Z.shiftr 0x2D 4) 15) /\
    (c.(dig_H4) mod 16 = 0x2D mod 16 /\ c.(dig_H4) / 16 = 0x13) /\
    (c.(dig_H5) mod 16 = 0x2D / 16 /\ c.(dig_H5) / 16 = 0x03) /\
    0 <= c.(dig_H4) <= 4095 /\ 0 <= c.(dig_H5) <= 4095.
Proof.
  apply (h4_h5_overlapping_nibbles datasheet_cal1 datasheet_cal2);
    try reflexivity; apply datasheet_blocks_are_bytes.
Defined.

(** ** The raw sample *)

Lemma raw20_value (b0 b1 b2 : Z) :
  0 <= b1 <= 255 -> 0 <= b2 <= 255 ->
  Z.lor (Z.lor (Z.shiftl b0 12) (Z.shiftl b1 4)) (Z.shiftr b2 4)
  = b0 * 4096 + b1 * 16 + b2 / 16.
Proof.
  intros H1 H2.
  assert (0 <= b2 / 16 < 16)
    by (split; [apply Z.div_pos | apply Z.div_lt_upper_bound]; lia).
  rewrite shiftr_4, (Z.lor_comm (Z.shiftl b0 12)).
  rewrite (Z.shiftl_mul_pow2 b1 4) by lia.
  rewrite lor_disjoint by lia.
  replace (b1 * 2 ^ 4 + b0 * 2 ^ 12) with (Z.shiftl (b1 + b0 * 256) 4)
    by (rewrite Z.shiftl_mul_pow2; lia).
  rewrite Z.lor_comm, lor_disjoint; lia.
Qed.

Lemma raw16_value (b6 b7 : Z) :
  0 <= b7 <= 255 -> Z.lor (Z.shiftl b6 8) b7 = b6 * 256 + b7.
Proof. intros H7. rewrite Z.lor_comm, lor_disjoint; lia. Qed.

(** C8. Every 8-byte burst yields a RawSample whose pressure and
    temperature, assembled as [(b0 << 12) | (b1 << 4) | (b2 >> 4)] and
    [(b3 << 12) | (b4 << 4) | (b5 >> 4)], are unsigned 20-bit values and
    whose humidity [(b6 << 8) | b7] is an unsigned 16-bit value. *)
Theorem read_raw_widths (raw : list Z) :
  is_bytes raw -> length raw = 8%nat ->
  exists s, read_raw raw = Ok s /\
    s.(raw_pressure)
      = Z.lor (Z.lor (Z.shiftl (byte_at raw 0) 12) (Z.shiftl (byte_at raw 1) 4))
              (Z.shiftr (byte_at raw 2) 4) /\
    s.(raw_temp)
      = Z.lor (Z.lor (Z.shiftl (byte_at raw 3) 12) (Z.shiftl (byte_at raw 4) 4))
              (Z.shiftr (byte_at raw 5) 4) /\
    s.(raw_humidity) = Z.lor (Z.shiftl (byte_at raw 6) 8) (byte_at raw 7) /\
    0 <= s.(raw_pressure) < 2 ^ 20 /\
    0 <= s.(raw_temp) < 2 ^ 20 /\
    0 <= s.(raw_humidity) < 2 ^ 16.
Proof.
  intros Hb Hl. unfold read_raw.
  rewrite !index_in_range by lia. cbn [bind].
  eexists. split; [reflexivity |].
  cbn [raw_pressure raw_temp raw_humidity].
  repeat split; trivial; note_bytes;
    rewrite ?raw20_value, ?raw16_value by lia;
    try (assert (0 <= byte_at raw 2 / 16 < 16)
           by (split; [apply Z.div_pos | apply Z.div_lt_upper_bound]; lia));
    try (assert (0 <= byte_at raw 5 / 16 < 16)
           by (split; [apply Z.div_pos | apply Z.div_lt_upper_bound]; lia));
    lia.
Qed.

Lemma read_raw_widths_witness :
  exists s, read_raw datasheet_raw = Ok s /\
    s.(raw_pressure) = Z.lor (Z.lor (Z.shiftl 0x65 12) (Z.shiftl 0x5A 4))
                             (Z.shiftr 0xC0 4) /\
    s.(raw_temp) = Z.lor (Z.lor (Z.shiftl 0x7E 12) (Z.shiftl 0xED 4))
                         (Z.shiftr 0x00 4) /\
    s.(raw_humidity) = Z.lor (Z.shiftl 0x80 8) 0x00 /\
    0 <= s.(raw_pressure) < 2 ^ 20 /\
    0 <= s.(raw_temp) < 2 ^ 20 /\
    0 <= s.(raw_humidity) < 2 ^ 16.
Proof.
  apply (read_raw_widths datasheet_raw);
    [apply datasheet_blocks_are_bytes | reflexivity].
Defined.

(** ** Failure of the decoder *)

Lemma index_cases (l : list Z) (i : nat) :
  (exists x, Py.index l i = Ok x) \/ Py.index l i = Err IndexError.
Proof.
  unfold Py.index. destruct (nth_error l i) as [x |]; [left; now exists x | now right].
Qed.

Lemma signed16_at_cases (l : list Z) (i : nat) :
  is_bytes l ->
  (exists x, signed16_at l i (S (S i)) = Ok x)
  \/ signed16_at l i (S (S i)) = Err StructError.
Proof.
  intros Hl. destruct (Nat.lt_ge_cases (S i) (length l)) as [Hlt | Hge].
  - left. eexists. now apply signed16_at_in_range.
  - right. now apply signed16_at_out_of_range.
Qed.

Lemma raises_index : @raises_on_length CalibrationSet (Err IndexError).
Proof. exists IndexError. auto. Qed.

Lemma raises_struct : @raises_on_length CalibrationSet (Err StructError).
Proof. exists StructError. auto. Qed.

(** Steps through the statements of the decoder: each one returns, or
    raises one of the two exceptions. *)
Ltac walk_decoder :=
  repeat first
    [ exact raises_index
    | exact raises_struct
    | match goal with
      | |- raises_on_length (bind (Py.index ?l ?i) _) =>
          destruct (index_cases l i) as [[? ->] | ->]; cbn [bind]
      | |- raises_on_length (bind (signed16_at ?l ?i _) _) =>
          let H := fresh in
          assert (H : is_bytes l) by assumption;
          destruct (signed16_at_cases l i H) as [[? ->] | ->]; clear H; cbn [bind]
      | |- raises_on_length (bind (Err ?e) _) => cbn [bind]
      end ].

Lemma decode_calibration_short (A B : list Z) :
  is_bytes A -> is_bytes B ->
  (length A < 26)%nat \/ (length B < 7)%nat ->
  raises_on_length (decode_calibration A B).
Proof.
  intros HA HB [Hs | Hs]; unfold decode_calibration.
  - rewrite (index_out_of_range A 25) by lia. walk_decoder.
  - rewrite (index_out_of_range B 6) by lia. walk_decoder.
Qed.

(** C1, as the code has it.  The decoder checks no length: on blocks of
    bytes it raises [IndexError] or [struct.error], returning no
    coefficient, exactly when block A has fewer than 26 bytes or block B
    fewer than 7; longer blocks are decoded from their first 26 and 7
    bytes. *)
Theorem decode_calibration_fails_iff_short (A B : list Z) :
  is_bytes A -> is_bytes B ->
  ((length A < 26)%nat \/ (length B < 7)%nat ->
     exists e, decode_calibration A B = Err e
               /\ (e = IndexError \/ e = StructError)) /\
  ((26 <= length A)%nat /\ (7 <= length B)%nat ->
     decode_calibration A B = Ok (spec_calibration A B)
     /\ spec_calibration A B = spec_calibration (firstn 26 A) (firstn 7 B)).
Proof.
  intros HA HB. split.
  - intros Hs. now apply decode_calibration_short.
  - intros [LA LB]. split; [now apply decode_calibration_ok |].
    unfold spec_calibration, byte_at.
    now rewrite !nth_firstn.
Qed.

Lemma decode_calibration_fails_iff_short_witness :
  ((length (firstn 23 datasheet_cal1) < 26)%nat \/ (length datasheet_cal2 < 7)%nat ->
     exists e, decode_calibration (firstn 23 datasheet_cal1) datasheet_cal2 = Err e
               /\ (e = IndexError \/ e = StructError)) /\
  ((26 <= length (firstn 23 datasheet_cal1))%nat /\ (7 <= length datasheet_cal2)%nat ->
     decode_calibration (firstn 23 datasheet_cal1) datasheet_cal2
       = Ok (spec_calibration (firstn 23 datasheet_cal1) datasheet_cal2)
     /\ spec_calibration (firstn 23 datasheet_cal1) datasheet_cal2
        = spec_calibration (firstn 26 (firstn 23 datasheet_cal1))
                           (firstn 7 datasheet_cal2)).
Proof.
  apply (decode_calibration_fails_iff_short (firstn 23 datasheet_cal1) datasheet_cal2).
  - unfold is_bytes. simpl. repeat (constructor; [lia |]). constructor.
  - apply datasheet_blocks_are_bytes.
Defined.

(** C1 as stated fails: a 27-byte block A is not rejected, it decodes to
    the coefficients of its first 26 bytes; and a block that is too short
    raises [struct.error] or [IndexError], the only exceptions the decoder
    has for a length. *)
Lemma decode_calibration_accepts_long_block :
  length (datasheet_cal1 ++ [0]) = 27%nat /\
  decode_calibration (datasheet_cal1 ++ [0]) datasheet_cal2
    = Ok (spec_calibration datasheet_cal1 datasheet_cal2) /\
  decode_calibration (firstn 23 datasheet_cal1) datasheet_cal2 = Err StructError /\
  decode_calibration (firstn 25 datasheet_cal1) datasheet_cal2 = Err IndexError.
Proof. repeat split; vm_compute; reflexivity. Qed.

(** ** Byte 24 of block A *)

Lemma slice_ext (l l' : list Z) (i j : nat) :
  (forall k, (i <= k < j)%nat -> nth_error l k = nth_error l' k) ->
  Py.slice l i j = Py.slice l' i j.
Proof.
  intros H. unfold Py.slice. apply nth_error_ext. intros n.
  rewrite !nth_error_firstn.
  destruct (Nat.ltb_spec n (j - i)) as [Hn | Hn]; trivial.
  rewrite !nth_error_skipn. apply H. lia.
Qed.

Lemma index_ext (l l' : list Z) (i : nat) :
  nth_error l i = nth_error l' i -> Py.index l i = Py.index l' i.
Proof. intros H. unfold Py.index. now rewrite H. Qed.

Lemma signed16_at_ext (l l' : list Z) (i j : nat) :
  (forall k, (i <= k < j)%nat -> nth_error l k = nth_error l' k) ->
  signed16_at l i j = signed16_at l' i j.
Proof. intros H. unfold signed16_at. now rewrite (slice_ext l l' i j H). Qed.

(** C10. Byte 24 of block A is never read: two blocks A that agree at
    every index but 24 give, with the same block B and the same burst, the
    same decoded coefficients and the same report. *)
Theorem byte_24_unused (libm_pow : float -> float -> float)
    (A A' B raw : list Z) :
  (forall i, i <> 24%nat -> nth_error A i = nth_error A' i) ->
  decode_calibration A B = decode_calibration A' B /\
  main libm_pow A B raw = main libm_pow A' B raw.
Proof.
  intros H.
  assert (decode_calibration A B = decode_calibration A' B) as E.
  { unfold decode_calibration.
    rewrite (index_ext A A' 0), (index_ext A A' 1), (index_ext A A' 6),
      (index_ext A A' 7), (index_ext A A' 25) by (apply H; lia).
    rewrite (signed16_at_ext A A' 2 4), (signed16_at_ext A A' 4 6),
      (signed16_at_ext A A' 8 10), (signed16_at_ext A A' 10 12),
      (signed16_at_ext A A' 12 14), (signed16_at_ext A A' 14 16),
      (signed16_at_ext A A' 16 18), (signed16_at_ext A A' 18 20),
      (signed16_at_ext A A' 20 22), (signed16_at_ext A A' 22 24)
      by (intros k Hk; apply H; lia).
    reflexivity. }
  split; [exact E |]. unfold main. now rewrite E.
Qed.

Lemma byte_24_unused_witness :
  decode_calibration datasheet_cal1 datasheet_cal2
    = decode_calibration (firstn 24 datasheet_cal1 ++ [0xA5; 0x4B]) datasheet_cal2 /\
  main pow_square datasheet_cal1 datasheet_cal2 datasheet_raw
    = main pow_square (firstn 24 datasheet_cal1 ++ [0xA5; 0x4B])
        datasheet_cal2 datasheet_raw.
Proof.
  apply (byte_24_unused pow_square datasheet_cal1
           (firstn 24 datasheet_cal1 ++ [0xA5; 0x4B]) datasheet_cal2 datasheet_raw).
  intros i Hi.
  do 24 (destruct i as [| i]; [reflexivity |]).
  destruct i as [| i]; [contradiction |].
  do 2 (destruct i as [| i]; [reflexivity |]). reflexivity.
Defined.

(** ** Floats *)

Lemma small_below_overflow : 2 ^ 63 < PyFloat.overflow_threshold.
Proof. vm_compute. reflexivity. Qed.

(** An integer of at most 63 bits converts without overflow. *)
Lemma float_of_int_small (z : Z) :
  Z.abs z < 2 ^ 63 -> PyFloat.float_of_int z = Ok (PyFloat.nearest z).
Proof.
  intros Hz. unfold PyFloat.float_of_int.
  pose proof small_below_overflow as Hs.
  now rewrite (proj2 (Z.ltb_lt _ _) (Z.lt_trans _ _ _ Hz Hs)).
Qed.

Lemma float_of_int_exn (z : Z) (e : exn) :
  PyFloat.float_of_int z = Err e -> e = OverflowError.
Proof.
  unfold PyFloat.float_of_int.
  destruct (Z.abs z <? PyFloat.overflow_threshold)%Z; congruence.
Qed.

Lemma ltb_leb (x y : float) : (x <? y)%float = true -> (x <=? y)%float = true.
Proof.
  rewrite ltb_spec, leb_spec. unfold SFltb, SFleb.
  destruct (SFcompare (Prim2SF x) (Prim2SF y)) as [[ | | ] |]; congruence.
Qed.

(** [x == c] for a finite nonzero [c] holds of [c] alone. *)
Lemma eqb_finite_eq (x c : float) (s : bool) (m : positive) (e : Z) :
  Prim2SF c = S754_finite s m e -> (x =? c)%float = true -> x = c.
Proof.
  intros Hc. rewrite eqb_spec, Hc. unfold SFeqb, SFcompare. intros H.
  apply Prim2SF_inj. rewrite Hc.
  destruct (Prim2SF x) as [s' | s' | | s' m' e']; try discriminate.
  - destruct s; discriminate.
  - destruct s'; discriminate.
  - destruct s', s; try discriminate;
      destruct (Z.compare_spec e' e); try discriminate; subst;
      destruct (Pos.compare_cont Eq m' m) eqn:Hm; try discriminate;
      apply Pos.compare_eq in Hm; now subst.
Qed.

Lemma truediv_nonzero (x y : float) :
  (y =? 0)%float = false -> PyFloat.truediv x y = Ok (x / y)%float.
Proof. intros H. unfold PyFloat.truediv. now rewrite H. Qed.

(** ** Exceptions of float expressions *)

Lemma only_overflow_ok {A : Type} (x : A) : only_overflow (Ok x).
Proof. intros e H. discriminate. Qed.

Lemma only_overflow_flt (x : float) : only_overflow (flt x).
Proof. apply only_overflow_ok. Qed.

Lemma only_overflow_int (z : Z) : only_overflow (int z).
Proof. apply only_overflow_ok. Qed.

Lemma only_overflow_bind {A B : Type} (m : result A) (k : A -> result B) :
  only_overflow m -> (forall x, m = Ok x -> only_overflow (k x)) ->
  only_overflow (bind m k).
Proof.
  intros Hm Hk e. destruct m as [x | e']; simpl.
  - now apply Hk.
  - intros [= <-]. now apply Hm.
Qed.

Lemma only_overflow_binop {A B : Type} `{FloatOperands A B}
    (op : float -> float -> result float) (a : result A) (b : result B) :
  (forall x y, only_overflow (op x y)) ->
  only_overflow a -> only_overflow b -> only_overflow (binop op a b).
Proof.
  intros Hop Ha Hb. unfold binop.
  apply only_overflow_bind; trivial. intros x _.
  apply only_overflow_bind; trivial. intros y _.
  apply only_overflow_bind; [| intros p _; apply Hop].
  intros e. apply to_doubles_exn.
Qed.

Lemma only_overflow_add (x y : float) : only_overflow (PyFloat.add x y).
Proof. apply only_overflow_ok. Qed.

Lemma only_overflow_sub (x y : float) : only_overflow (PyFloat.sub x y).
Proof. apply only_overflow_ok. Qed.

Lemma only_overflow_mul (x y : float) : only_overflow (PyFloat.mul x y).
Proof. apply only_overflow_ok. Qed.

Lemma only_overflow_pow (libm_pow : float -> float -> float) (x y : float) :
  only_overflow (float_pow libm_pow x y).
Proof.
  unfold float_pow. intros e.
  destruct (is_finite x && is_finite y && is_infinity (libm_pow x y));
    congruence.
Qed.

(** A division by a float that is not zero. *)
Lemma only_overflow_div_ff (a : result float) (c : float) :
  (c =? 0)%float = false -> only_overflow a ->
  only_overflow (binop PyFloat.truediv a (flt c)).
Proof.
  intros Hc Ha. unfold binop, flt. apply only_overflow_bind; trivial.
  intros x _. cbn [bind to_doubles float_float_operands fst snd].
  rewrite truediv_nonzero by assumption. apply only_overflow_ok.
Qed.

Lemma only_overflow_div_if (a : result Z) (c : float) :
  (c =? 0)%float = false -> only_overflow a ->
  only_overflow (binop PyFloat.truediv a (flt c)).
Proof.
  intros Hc Ha. unfold binop, flt. apply only_overflow_bind; trivial.
  intros x _. cbn [bind to_doubles int_float_operands].
  apply only_overflow_bind.
  - apply only_overflow_bind; [exact (float_of_int_exn x) |].
    intros. apply only_overflow_ok.
  - intros p Hp. destruct (PyFloat.float_of_int x); [| discriminate].
    injection Hp as <-. cbn [fst snd].
    rewrite truediv_nonzero by assumption. apply only_overflow_ok.
Qed.

(** Decomposes a float expression of the source operator by operator. *)
Ltac only_overflow_expr :=
  repeat first
    [ apply only_overflow_flt
    | apply only_overflow_int
    | apply only_overflow_div_ff; [first [reflexivity | assumption] |]
    | apply only_overflow_div_if; [first [reflexivity | assumption] |]
    | apply only_overflow_binop;
      [ first [ exact only_overflow_add | exact only_overflow_sub
              | exact only_overflow_mul | apply only_overflow_pow ] | | ] ].

(** Steps through the statements of a block, one bind at a time. *)
Ltac only_overflow_block :=
  repeat first
    [ apply only_overflow_ok
    | apply only_overflow_bind; [only_overflow_expr | intros ? _] ].

Lemma compensate_temperature_exn (libm_pow : float -> float -> float)
    (cal : CalibrationSet) (raw_t : Z) :
  only_overflow (compensate_temperature libm_pow cal raw_t).
Proof. unfold compensate_temperature. only_overflow_block. Qed.

Lemma pressure_terms_exn (cal : CalibrationSet) (t_fine : float) :
  only_overflow (pressure_terms cal t_fine).
Proof. unfold pressure_terms. only_overflow_block. Qed.

Lemma pressure_polynomial_exn (cal : CalibrationSet) (raw_p : Z)
    (var1 var2 : float) :
  (var1 =? 0)%float = false ->
  only_overflow (pressure_polynomial cal raw_p var1 var2).
Proof. intros H. unfold pressure_polynomial. only_overflow_block. Qed.

Lemma humidity_polynomial_exn (cal : CalibrationSet) (raw_h : Z) (h : float) :
  only_overflow (humidity_polynomial cal raw_h h).
Proof. unfold humidity_polynomial. only_overflow_block. Qed.

Lemma compensate_pressure_exn (cal : CalibrationSet) (raw_p : Z)
    (t_fine : float) :
  only_overflow (compensate_pressure cal raw_p t_fine).
Proof.
  unfold compensate_pressure.
  apply only_overflow_bind; [apply pressure_terms_exn |].
  intros [var1 var2] _. unfold PyFloat.ne_zero.
  destruct (var1 =? 0)%float eqn:Hz; cbn [negb].
  - apply only_overflow_ok.
  - apply only_overflow_bind; [now apply pressure_polynomial_exn |].
    intros. apply only_overflow_ok.
Qed.

Lemma compensate_humidity_exn (cal : CalibrationSet) (raw_h : Z)
    (t_fine : float) :
  only_overflow (compensate_humidity cal raw_h t_fine).
Proof.
  unfold compensate_humidity.
  apply only_overflow_bind; [only_overflow_expr |].
  intros h _. destruct (PyFloat.ne_zero h).
  - apply only_overflow_bind; [apply humidity_polynomial_exn |].
    intros. apply only_overflow_ok.
  - apply only_overflow_ok.
Qed.

Lemma compensate_exn (libm_pow : float -> float -> float)
    (cal : CalibrationSet) (s : RawSample) :
  only_overflow (compensate libm_pow cal s).
Proof.
  unfold compensate.
  apply only_overflow_bind; [apply compensate_temperature_exn |].
  intros [t_fine t] _.
  apply only_overflow_bind; [apply compensate_pressure_exn |]. intros p _.
  apply only_overflow_bind; [apply compensate_humidity_exn |]. intros h _.
  apply only_overflow_ok.
Qed.

(** ** Evaluation of float expressions on operands that convert *)

Lemma binop_ff (op : float -> float -> result float) (x y : float) :
  binop op (Ok x) (Ok y) = op x y.
Proof. reflexivity. Qed.

Lemma binop_if (op : float -> float -> result float) (z : Z) (y : float) :
  Z.abs z < 2 ^ 63 -> binop op (Ok z) (Ok y) = op (PyFloat.nearest z) y.
Proof.
  intros Hz. unfold binop. cbn [bind to_doubles int_float_operands].
  now rewrite float_of_int_small.
Qed.

Lemma binop_fi (op : float -> float -> result float) (x : float) (z : Z) :
  Z.abs z < 2 ^ 63 -> binop op (Ok x) (Ok z) = op x (PyFloat.nearest z).
Proof.
  intros Hz. unfold binop. cbn [bind to_doubles float_int_operands].
  now rewrite float_of_int_small.
Qed.

(** Turns the field widths in the context into bounds for [lia]. *)
Ltac widths :=
  repeat match goal with
  | H : wf_calibration _ |- _ => unfold wf_calibration in H
  | H : wf_sample _ |- _ => unfold wf_sample in H
  | H : _ /\ _ |- _ => destruct H
  end;
  unfold u8, u12, u16, u20, i8, i16 in *.

(** Evaluates the float expressions of the goal, innermost first. *)
Ltac py_eval :=
  unfold flt, int;
  repeat first
    [ rewrite binop_ff
    | rewrite binop_if by lia
    | rewrite binop_fi by lia
    | progress unfold PyFloat.add, PyFloat.sub, PyFloat.mul
    | rewrite truediv_nonzero by first [reflexivity | assumption]
    | progress cbn [bind] ].


(** ** The temperature step *)

(** C4. The temperature step computes
    [var1 = (raw_t/16384.0 - t1/1024.0) * t2],
    [var2 = ((raw_t/131072.0 - t1/8192.0) ** 2) * t3],
    [t_fine = var1 + var2] and [temperature = t_fine / 5120.0], and the
    pressure and humidity steps receive that [t_fine]. *)
Theorem temperature_formula (libm_pow : float -> float -> float)
    (cal : CalibrationSet) (s : RawSample) :
  wf_calibration cal -> wf_sample s ->
  compensate libm_pow cal s = spec_compensate libm_pow cal s.
Proof.
  intros Hc Hs. widths.
  unfold compensate, spec_compensate, compensate_temperature,
    spec_temperature_var1, spec_temperature_base.
  py_eval. change (PyFloat.nearest 2) with 2%float.
  destruct (float_pow libm_pow _ 2) as [square | e]; [| reflexivity].
  py_eval. reflexivity.
Qed.

Lemma datasheet_sample_wf :
  wf_calibration (spec_calibration datasheet_cal1 datasheet_cal2)
  /\ wf_sample datasheet_sample.
Proof.
  split.
  - apply spec_calibration_wf; try apply datasheet_blocks_are_bytes;
      simpl; lia.
  - unfold wf_sample, u20, u16. simpl. lia.
Qed.

Lemma temperature_formula_witness :
  compensate pow_square (spec_calibration datasheet_cal1 datasheet_cal2)
    datasheet_sample
  = spec_compensate pow_square (spec_calibration datasheet_cal1 datasheet_cal2)
      datasheet_sample.
Proof.
  apply temperature_formula; apply datasheet_sample_wf.
Defined.

(** ** The humidity step *)

Lemma clamp_in_percent_range (h : float) :
  in_percent_range (F (PyFloat.max 0 (PyFloat.min 100 h))).
Proof.
  unfold in_percent_range, PyFloat.max, PyFloat.min.
  destruct (h <? 100)%float eqn:Hhi.
  - destruct (0 <? h)%float eqn:Hlo.
    + split; now apply ltb_leb.
    + split; reflexivity.
  - change (0 <? 100)%float with true. split; reflexivity.
Qed.

Lemma humidity_polynomial_returns (cal : CalibrationSet) (raw_h : Z) (h : float) :
  wf_calibration cal -> u16 raw_h ->
  exists poly, humidity_polynomial cal raw_h h = Ok poly.
Proof.
  intros Hc Hr. widths. unfold humidity_polynomial. py_eval.
  eexists. reflexivity.
Qed.

Lemma compensate_humidity_in_range (cal : CalibrationSet) (raw_h : Z)
    (t_fine : float) (v : num) :
  compensate_humidity cal raw_h t_fine = Ok v -> in_percent_range v.
Proof.
  unfold compensate_humidity. py_eval.
  destruct (PyFloat.ne_zero (t_fine - 76800)).
  - destruct (humidity_polynomial cal raw_h (t_fine - 76800)) as [poly | e];
      cbn [bind]; [| discriminate].
    intros [= <-]. apply clamp_in_percent_range.
  - intros [= <-]. simpl. lia.
Qed.

Lemma pressure_terms_returns (cal : CalibrationSet) (t_fine : float) :
  wf_calibration cal ->
  exists var1 var2, pressure_terms cal t_fine = Ok (var1, var2).
Proof.
  intros Hc. widths. unfold pressure_terms. py_eval.
  eexists. eexists. reflexivity.
Qed.

Lemma pressure_polynomial_returns (cal : CalibrationSet) (raw_p : Z)
    (var1 var2 : float) :
  wf_calibration cal -> u20 raw_p -> (var1 =? 0)%float = false ->
  exists p, pressure_polynomial cal raw_p var1 var2 = Ok p.
Proof.
  intros Hc Hr Hz. widths. unfold pressure_polynomial. py_eval.
  eexists. reflexivity.
Qed.

Lemma compensate_pressure_returns (cal : CalibrationSet) (raw_p : Z)
    (t_fine : float) :
  wf_calibration cal -> u20 raw_p ->
  exists p, compensate_pressure cal raw_p t_fine = Ok p.
Proof.
  intros Hc Hr. unfold compensate_pressure.
  destruct (pressure_terms_returns cal t_fine Hc) as (var1 & var2 & ->).
  cbn [bind]. unfold PyFloat.ne_zero.
  destruct (var1 =? 0)%float eqn:Hz; cbn [negb]; [now eexists |].
  destruct (pressure_polynomial_returns cal raw_p var1 var2 Hc Hr Hz) as [p ->].
  now eexists.
Qed.

Lemma compensate_humidity_returns (cal : CalibrationSet) (raw_h : Z)
    (t_fine : float) :
  wf_calibration cal -> u16 raw_h ->
  exists h, compensate_humidity cal raw_h t_fine = Ok h.
Proof.
  intros Hc Hr. unfold compensate_humidity. py_eval.
  destruct (PyFloat.ne_zero (t_fine - 76800)); [| now eexists].
  destruct (humidity_polynomial_returns cal raw_h (t_fine - 76800) Hc Hr)
    as [poly ->].
  now eexists.
Qed.

(** On coefficients and samples within their widths the engine returns a
    reading as soon as the library power of the temperature step does not
    overflow. *)
Lemma compensate_returns (libm_pow : float -> float -> float)
    (cal : CalibrationSet) (s : RawSample) (square : float) :
  wf_calibration cal -> wf_sample s ->
  float_pow libm_pow (spec_temperature_base cal s.(raw_temp)) 2.0 = Ok square ->
  exists r, compensate libm_pow cal s = Ok r.
Proof.
  intros Hc Hs Hpow.
  destruct (compensate_pressure_returns cal (raw_pressure s)
              ((spec_temperature_var1 cal (raw_temp s)
                + square * PyFloat.nearest (dig_T3 cal)))%float Hc) as [p Hp];
    [apply Hs |].
  destruct (compensate_humidity_returns cal (raw_humidity s)
              ((spec_temperature_var1 cal (raw_temp s)
                + square * PyFloat.nearest (dig_T3 cal)))%float Hc) as [h Hh];
    [apply Hs |].
  widths. unfold compensate, compensate_temperature.
  unfold spec_temperature_base in Hpow.
  unfold spec_temperature_var1 in Hp, Hh.
  py_eval. change (PyFloat.nearest 2) with 2%float. rewrite Hpow.
  py_eval. rewrite Hp. cbn [bind]. rewrite Hh. cbn [bind]. now eexists.
Qed.

(** C2. The humidity step always produces a value, and that value lies in
    [0, 100]: [0] on the degenerate branch, and
    [max(0, min(100, polynomial))] on the other.  Whatever reading the
    engine returns has its humidity in that interval, and the engine
    returns one as soon as the power of the temperature step does. *)
Theorem humidity_clamped (libm_pow : float -> float -> float)
    (cal : CalibrationSet) (s : RawSample) :
  wf_calibration cal -> wf_sample s ->
  (forall t_fine : float,
     exists v, compensate_humidity cal s.(raw_humidity) t_fine = Ok v /\
       in_percent_range v /\
       ((PyFloat.ne_zero (t_fine - 76800.0) = false /\ v = I 0) \/
        (PyFloat.ne_zero (t_fine - 76800.0) = true /\
         exists poly,
           humidity_polynomial cal s.(raw_humidity) (t_fine - 76800.0) = Ok poly
           /\ v = F (PyFloat.max 0.0 (PyFloat.min 100.0 poly))))) /\
  (forall r, compensate libm_pow cal s = Ok r -> in_percent_range r.(humidity)) /\
  (forall square,
     float_pow libm_pow (spec_temperature_base cal s.(raw_temp)) 2.0 = Ok square ->
     exists r, compensate libm_pow cal s = Ok r /\ in_percent_range r.(humidity)).
Proof.
  intros Hc Hs.
  assert (forall r, compensate libm_pow cal s = Ok r ->
                    in_percent_range r.(humidity)) as Hrange.
  { intros r. unfold compensate.
    destruct (compensate_temperature libm_pow cal (raw_temp s))
      as [[t_fine t] | e]; cbn [bind]; [| discriminate].
    destruct (compensate_pressure cal (raw_pressure s) t_fine) as [p | e];
      cbn [bind]; [| discriminate].
    destruct (compensate_humidity cal (raw_humidity s) t_fine) as [h | e] eqn:Hh;
      cbn [bind]; [| discriminate].
    intros [= <-]. cbn [humidity].
    now apply (compensate_humidity_in_range cal (raw_humidity s) t_fine). }
  split; [| split; [exact Hrange |]].
  - intros t_fine.
    assert (exists v, compensate_humidity cal (raw_humidity s) t_fine = Ok v /\
              ((PyFloat.ne_zero (t_fine - 76800.0) = false /\ v = I 0) \/
               (PyFloat.ne_zero (t_fine - 76800.0) = true /\
                exists poly,
                  humidity_polynomial cal (raw_humidity s) (t_fine - 76800.0)
                    = Ok poly
                  /\ v = F (PyFloat.max 0.0 (PyFloat.min 100.0 poly)))))
      as (v & Hv & Hbranch).
    { unfold compensate_humidity. py_eval.
      destruct (PyFloat.ne_zero (t_fine - 76800)) eqn:Hz.
      - destruct (humidity_polynomial_returns cal (raw_humidity s)
                    (t_fine - 76800) Hc) as [poly Hp]; [apply Hs |].
        rewrite Hp. cbn [bind]. eexists. split; [reflexivity |].
        right. split; trivial. now exists poly.
      - eexists. split; [reflexivity |]. left. now split. }
    exists v. repeat split; trivial.
    now apply (compensate_humidity_in_range cal (raw_humidity s) t_fine).
  - intros square Hpow.
    destruct (compensate_returns libm_pow cal s square Hc Hs Hpow) as [r Hr].
    exists r. split; [exact Hr | now apply Hrange].
Qed.

(** The worked example: the engine returns a reading, of humidity within
    [0, 100]. *)
Lemma humidity_clamped_witness :
  exists r,
    compensate pow_square (spec_calibration datasheet_cal1 datasheet_cal2)
      datasheet_sample = Ok r
    /\ in_percent_range r.(humidity).
Proof.
  eapply (proj2 (proj2 (humidity_clamped pow_square
                          (spec_calibration datasheet_cal1 datasheet_cal2)
                          datasheet_sample
                          (proj1 datasheet_sample_wf)
                          (proj2 datasheet_sample_wf)))).
  vm_compute. reflexivity.
Defined.

(** C6. When [t_fine == 76800.0] the difference [t_fine - 76800.0] is
    zero and the humidity step returns the integer [0]: the polynomial is
    not evaluated and nothing is divided. *)
Theorem humidity_degenerate (cal : CalibrationSet) (raw_h : Z) (t_fine : float) :
  (t_fine =? 76800.0)%float = true ->
  (t_fine - 76800.0 =? 0)%float = true /\
  compensate_humidity cal raw_h t_fine = Ok (I 0).
Proof.
  intros H.
  assert (t_fine = 76800.0%float) as ->
    by (eapply eqb_finite_eq; [vm_compute; reflexivity | exact H]).
  split; [reflexivity |].
  unfold compensate_humidity. py_eval.
  change (PyFloat.ne_zero (76800 - 76800)) with false. reflexivity.
Qed.

Lemma humidity_degenerate_witness :
  (76800.0 - 76800.0 =? 0)%float = true /\
  compensate_humidity (spec_calibration datasheet_cal1 datasheet_cal2)
    datasheet_sample.(raw_humidity) 76800.0 = Ok (I 0).
Proof.
  apply (humidity_degenerate (spec_calibration datasheet_cal1 datasheet_cal2)
           datasheet_sample.(raw_humidity) 76800.0).
  vm_compute. reflexivity.
Defined.

(** ** The pressure step *)

(** C5. When the denominator [var1 = (1.0 + var1/32768.0) * p1] is zero
    the pressure step returns the integer [0]; otherwise it evaluates the
    polynomial, whose divisions are by nonzero values, and returns its
    value.  No [ZeroDivisionError] leaves the engine: the only exception
    it can raise is [OverflowError]. *)
Theorem pressure_division_guard (libm_pow : float -> float -> float)
    (cal : CalibrationSet) (s : RawSample) :
  wf_calibration cal -> wf_sample s ->
  (forall t_fine : float,
     exists var1 var2, pressure_terms cal t_fine = Ok (var1, var2) /\
       (((var1 =? 0)%float = true /\
         compensate_pressure cal s.(raw_pressure) t_fine = Ok (I 0)) \/
        ((var1 =? 0)%float = false /\
         exists p,
           pressure_polynomial cal s.(raw_pressure) var1 var2 = Ok p /\
           compensate_pressure cal s.(raw_pressure) t_fine = Ok (F p)))) /\
  (forall e, compensate libm_pow cal s = Err e -> e = OverflowError).
Proof.
  intros Hc Hs. split.
  - intros t_fine.
    destruct (pressure_terms_returns cal t_fine Hc) as (var1 & var2 & Ht).
    exists var1, var2. split; trivial.
    unfold compensate_pressure. rewrite Ht. cbn [bind]. unfold PyFloat.ne_zero.
    destruct (var1 =? 0)%float eqn:Hz; cbn [negb].
    + left. now split.
    + right. split; trivial.
      destruct (pressure_polynomial_returns cal (raw_pressure s) var1 var2 Hc)
        as [p Hp]; [apply Hs | exact Hz |].
      exists p. rewrite Hp. now split.
  - apply compensate_exn.
Qed.

Lemma pressure_division_guard_witness :
  (forall t_fine : float,
     exists var1 var2,
       pressure_terms (spec_calibration datasheet_cal1 datasheet_cal2) t_fine
         = Ok (var1, var2) /\
       (((var1 =? 0)%float = true /\
         compensate_pressure (spec_calibration datasheet_cal1 datasheet_cal2)
           datasheet_sample.(raw_pressure) t_fine = Ok (I 0)) \/
        ((var1 =? 0)%float = false /\
         exists p,
           pressure_polynomial (spec_calibration datasheet_cal1 datasheet_cal2)
             datasheet_sample.(raw_pressure) var1 var2 = Ok p /\
           compensate_pressure (spec_calibration datasheet_cal1 datasheet_cal2)
             datasheet_sample.(raw_pressure) t_fine = Ok (F p)))) /\
  (forall e,
     compensate pow_square (spec_calibration datasheet_cal1 datasheet_cal2)
       datasheet_sample = Err e -> e = OverflowError).
Proof.
  apply (pressure_division_guard pow_square
           (spec_calibration datasheet_cal1 datasheet_cal2) datasheet_sample);
    apply datasheet_sample_wf.
Defined.

(** Both branches of the pressure step are taken: a sensor whose [p1] is
    zero has a zero denominator. *)
Lemma pressure_degenerate_example :
  compensate_pressure
    {| dig_T1 := 27504; dig_T2 := 26435; dig_T3 := -1000;
       dig_P1 := 0; dig_P2 := -10685; dig_P3 := 3024; dig_P4 := 2855;
       dig_P5 := 140; dig_P6 := -7; dig_P7 := 15500; dig_P8 := -14600;
       dig_P9 := 6000;
       dig_H1 := 75; dig_H2 := 362; dig_H3 := 0; dig_H4 := 317;
       dig_H5 := 50; dig_H6 := 30 |} 415148 128422.0 = Ok (I 0).
Proof. vm_compute. reflexivity. Qed.

(** ** The report *)

Lemma pressure_terms_unrounded (cal : CalibrationSet) (t_fine : float) :
  wf_calibration cal ->
  pressure_terms cal t_fine = Ok (unrounded_pressure_terms cal t_fine).
Proof.
  intros Hc. widths. unfold pressure_terms, unrounded_pressure_terms.
  py_eval. reflexivity.
Qed.

Lemma pressure_polynomial_unrounded (cal : CalibrationSet) (raw_p : Z)
    (var1 var2 : float) :
  wf_calibration cal -> u20 raw_p -> (var1 =? 0)%float = false ->
  pressure_polynomial cal raw_p var1 var2
  = Ok (unrounded_pressure_polynomial cal raw_p var1 var2).
Proof.
  intros Hc Hr Hz. widths.
  unfold pressure_polynomial, unrounded_pressure_polynomial.
  py_eval. reflexivity.
Qed.

Lemma compensate_pressure_unrounded (cal : CalibrationSet) (raw_p : Z)
    (t_fine : float) :
  wf_calibration cal -> u20 raw_p ->
  compensate_pressure cal raw_p t_fine = Ok (unrounded_pressure cal raw_p t_fine).
Proof.
  intros Hc Hr. unfold compensate_pressure, unrounded_pressure.
  rewrite (pressure_terms_unrounded cal t_fine Hc). cbn [bind].
  destruct (unrounded_pressure_terms cal t_fine) as [var1 var2].
  unfold PyFloat.ne_zero.
  destruct (var1 =? 0)%float eqn:Hz; cbn [negb]; [reflexivity |].
  now rewrite (pressure_polynomial_unrounded cal raw_p var1 var2 Hc Hr Hz).
Qed.

Lemma humidity_polynomial_unrounded (cal : CalibrationSet) (raw_h : Z)
    (h : float) :
  wf_calibration cal -> u16 raw_h ->
  humidity_polynomial cal raw_h h = Ok (unrounded_humidity_polynomial cal raw_h h).
Proof.
  intros Hc Hr. widths.
  unfold humidity_polynomial, unrounded_humidity_polynomial.
  py_eval. reflexivity.
Qed.

Lemma compensate_humidity_unrounded (cal : CalibrationSet) (raw_h : Z)
    (t_fine : float) :
  wf_calibration cal -> u16 raw_h ->
  compensate_humidity cal raw_h t_fine = Ok (unrounded_humidity cal raw_h t_fine).
Proof.
  intros Hc Hr. unfold compensate_humidity, unrounded_humidity. py_eval.
  unfold PyFloat.ne_zero.
  destruct (t_fine - 76800 =? 0)%float; cbn [negb]; [reflexivity |].
  rewrite (humidity_polynomial_unrounded cal raw_h _ Hc Hr). cbn [bind].
  unfold PyFloat.max, PyFloat.min.
  destruct (unrounded_humidity_polynomial cal raw_h (t_fine - 76800) <? 100)%float;
    [reflexivity |].
  change (0 <? 100)%float with true. reflexivity.
Qed.

Lemma compensate_unrounded (libm_pow : float -> float -> float)
    (cal : CalibrationSet) (s : RawSample) :
  wf_calibration cal -> wf_sample s ->
  compensate libm_pow cal s
  = (square <- float_pow libm_pow (spec_temperature_base cal s.(raw_temp)) 2.0 ;;
     Ok (unrounded_reading cal s square))%py.
Proof.
  intros Hc Hs.
  assert (u20 s.(raw_pressure) /\ u16 s.(raw_humidity)) as [Hp Hh]
    by (split; apply Hs).
  pose proof (fun t => compensate_pressure_unrounded cal _ t Hc Hp) as P.
  pose proof (fun t => compensate_humidity_unrounded cal _ t Hc Hh) as H.
  widths.
  unfold compensate, compensate_temperature, unrounded_reading, unrounded_t_fine,
    spec_temperature_var1, spec_temperature_base.
  py_eval. change (PyFloat.nearest 2) with 2%float.
  destruct (float_pow libm_pow _ 2) as [square | e]; [| reflexivity].
  py_eval. rewrite P, H. reflexivity.
Qed.

(** C9. The report is the unrounded reading of the engine, each value
    rounded once: temperature and humidity to one decimal, pressure to
    two.  The pressure and humidity steps are fed the unrounded [t_fine],
    of which the unrounded temperature is [t_fine / 5120.0].  On
    coefficients and a sample within their widths that reading is, step by
    step, the value of an expression of binary64 additions, subtractions,
    products, quotients and the square alone: nothing is rounded to
    decimals before the report. *)
Theorem rounding_at_report (libm_pow : float -> float -> float)
    (A B raw : list Z) (rep : Report) :
  (main libm_pow A B raw = Ok rep <->
   exists cal s t_fine t p h,
     decode_calibration A B = Ok cal /\ read_raw raw = Ok s /\
     compensate_temperature libm_pow cal s.(raw_temp) = Ok (t_fine, t) /\
     compensate_pressure cal s.(raw_pressure) t_fine = Ok p /\
     compensate_humidity cal s.(raw_humidity) t_fine = Ok h /\
     compensate libm_pow cal s
       = Ok {| temperature := t; humidity := h; pressure := p |} /\
     PyFloat.round t 1 = Ok rep.(report_temperature) /\
     round_num h 1 = Ok rep.(report_humidity) /\
     round_num p 2 = Ok rep.(report_pressure)) /\
  (forall cal s, wf_calibration cal -> wf_sample s ->
     (forall t_fine,
        compensate_pressure cal s.(raw_pressure) t_fine
        = Ok (unrounded_pressure cal s.(raw_pressure) t_fine) /\
        compensate_humidity cal s.(raw_humidity) t_fine
        = Ok (unrounded_humidity cal s.(raw_humidity) t_fine)) /\
     compensate libm_pow cal s
     = (square <- float_pow libm_pow (spec_temperature_base cal s.(raw_temp)) 2.0 ;;
        Ok (unrounded_reading cal s square))%py /\
     (forall r, compensate libm_pow cal s = Ok r ->
        (r <- compensate libm_pow cal s ;; report r)%py
        = (t <- PyFloat.round r.(temperature) 1 ;;
           h <- round_num r.(humidity) 1 ;;
           p <- round_num r.(pressure) 2 ;;
           Ok {| report_temperature := t; report_humidity := h;
                 report_pressure := p |})%py /\
        exists square,
          float_pow libm_pow (spec_temperature_base cal s.(raw_temp)) 2.0
          = Ok square /\ r = unrounded_reading cal s square)).
Proof.
  split.
  - unfold main, report, compensate. split.
    + destruct (decode_calibration A B) as [cal | e] eqn:Hd; cbn [bind];
        [| discriminate].
      destruct (read_raw raw) as [s | e] eqn:Hr; cbn [bind]; [| discriminate].
      destruct (compensate_temperature libm_pow cal (raw_temp s))
        as [[t_fine t] | e] eqn:Ht; cbn [bind]; [| discriminate].
      destruct (compensate_pressure cal (raw_pressure s) t_fine) as [p | e] eqn:Hp;
        cbn [bind]; [| discriminate].
      destruct (compensate_humidity cal (raw_humidity s) t_fine) as [h | e] eqn:Hh;
        cbn [bind temperature humidity pressure]; [| discriminate].
      destruct (PyFloat.round t 1) as [rt | e] eqn:Rt; cbn [bind]; [| discriminate].
      destruct (round_num h 1) as [rh | e] eqn:Rh; cbn [bind]; [| discriminate].
      destruct (round_num p 2) as [rp | e] eqn:Rp; cbn [bind]; [| discriminate].
      intros [= <-]. exists cal, s, t_fine, t, p, h.
      rewrite Ht. cbn [bind]. rewrite Hp, Hh. now repeat split.
    + intros (cal & s & t_fine & t & p & h & Hd & Hr & Ht & Hp & Hh & _ & Rt & Rh & Rp).
      rewrite Hd, Hr. cbn [bind]. rewrite Ht. cbn [bind]. rewrite Hp, Hh.
      cbn [bind temperature humidity pressure]. rewrite Rt, Rh, Rp.
      cbn [bind]. now destruct rep.
  - intros cal s Hc Hs. split; [| split].
    + intros t_fine. split.
      * apply compensate_pressure_unrounded; [exact Hc | apply Hs].
      * apply compensate_humidity_unrounded; [exact Hc | apply Hs].
    + now apply compensate_unrounded.
    + intros r Hr. split.
      * rewrite Hr. reflexivity.
      * rewrite (compensate_unrounded libm_pow cal s Hc Hs) in Hr.
        destruct (float_pow libm_pow _ 2) as [square | e]; cbn [bind] in Hr;
          [| discriminate].
        exists square. split; [reflexivity | congruence].
Qed.

(** The worked example of the datasheet, end to end: 25.08 degrees C and
    1006.53 hPa are reported as 25.1 and 1006.53. *)
Lemma rounding_at_report_witness :
  (exists cal s t_fine t p h,
     decode_calibration datasheet_cal1 datasheet_cal2 = Ok cal /\
     read_raw datasheet_raw = Ok s /\
     compensate_temperature pow_square cal s.(raw_temp) = Ok (t_fine, t) /\
     compensate_pressure cal s.(raw_pressure) t_fine = Ok p /\
     compensate_humidity cal s.(raw_humidity) t_fine = Ok h /\
     compensate pow_square cal s
       = Ok {| temperature := t; humidity := h; pressure := p |} /\
     PyFloat.round t 1 = Ok datasheet_report.(report_temperature) /\
     round_num h 1 = Ok datasheet_report.(report_humidity) /\
     round_num p 2 = Ok datasheet_report.(report_pressure)) /\
  compensate pow_square (spec_calibration datasheet_cal1 datasheet_cal2)
    datasheet_sample
  = (square <- float_pow pow_square
                 (spec_temperature_base
                    (spec_calibration datasheet_cal1 datasheet_cal2)
                    datasheet_sample.(raw_temp)) 2.0 ;;
     Ok (unrounded_reading (spec_calibration datasheet_cal1 datasheet_cal2)
           datasheet_sample square))%py.
Proof.
  pose proof (rounding_at_report pow_square datasheet_cal1 datasheet_cal2
                datasheet_raw datasheet_report) as [Hmain Hwf].
  split.
  - apply (proj1 Hmain). vm_compute. reflexivity.
  - apply (Hwf (spec_calibration datasheet_cal1 datasheet_cal2) datasheet_sample);
      apply datasheet_sample_wf.
Defined.

(** * Further properties of the BME280 reader *)

(** ** The raw sample on arbitrary bursts *)

Lemma read_raw_long (raw : list Z) :
  (8 <= length raw)%nat ->
  read_raw raw =
    Ok {| raw_pressure :=
            Z.lor (Z.lor (Z.shiftl (byte_at raw 0) 12) (Z.shiftl (byte_at raw 1) 4))
                  (Z.shiftr (byte_at raw 2) 4);
          raw_temp :=
            Z.lor (Z.lor (Z.shiftl (byte_at raw 3) 12) (Z.shiftl (byte_at raw 4) 4))
                  (Z.shiftr (byte_at raw 5) 4);
          raw_humidity := Z.lor (Z.shiftl (byte_at raw 6) 8) (byte_at raw 7) |}.
Proof.
  intros Hl. unfold read_raw. rewrite !index_in_range by lia. reflexivity.
Qed.

Lemma read_raw_exn (raw : list Z) (e : exn) :
  read_raw raw = Err e -> e = IndexError.
Proof.
  unfold read_raw.
  repeat match goal with
  | |- bind (Py.index ?l ?i) _ = _ -> _ =>
      destruct (index_cases l i) as [[? ->] | ->]; cbn [bind];
      [| congruence]
  end.
  discriminate.
Qed.

(** X1. The burst is indexed without any check of its length or of its
    elements: fewer than 8 elements raise [IndexError], and 8 or more
    integers, bytes or not, are assembled from the first eight. *)
Theorem read_raw_fails_iff_short (raw : list Z) :
  ((length raw < 8)%nat -> read_raw raw = Err IndexError) /\
  ((8 <= length raw)%nat ->
   read_raw raw =
     Ok {| raw_pressure :=
             Z.lor (Z.lor (Z.shiftl (byte_at raw 0) 12) (Z.shiftl (byte_at raw 1) 4))
                   (Z.shiftr (byte_at raw 2) 4);
           raw_temp :=
             Z.lor (Z.lor (Z.shiftl (byte_at raw 3) 12) (Z.shiftl (byte_at raw 4) 4))
                   (Z.shiftr (byte_at raw 5) 4);
           raw_humidity := Z.lor (Z.shiftl (byte_at raw 6) 8) (byte_at raw 7) |}).
Proof.
  split; intros Hl; [| now apply read_raw_long].
  destruct (read_raw raw) as [s | e] eqn:E.
  - exfalso. unfold read_raw in E.
    rewrite (index_out_of_range raw 7) in E by lia.
    repeat match type of E with
    | bind (Py.index ?l ?i) _ = _ =>
        destruct (index_cases l i) as [[? Hi] | Hi]; rewrite Hi in E;
        cbn [bind] in E; clear Hi; try discriminate
    end.
  - now rewrite (read_raw_exn raw e E).
Qed.

Lemma nibble_range (b : Z) : 0 <= b <= 255 -> 0 <= b / 16 < 16.
Proof.
  intros Hb. split; [apply Z.div_pos | apply Z.div_lt_upper_bound]; lia.
Qed.

Lemma bytes_of_burst (r : list Z) :
  is_bytes r -> length r = 8%nat ->
  (0 <= byte_at r 0 <= 255 /\ 0 <= byte_at r 1 <= 255 /\
   0 <= byte_at r 2 <= 255 /\ 0 <= byte_at r 3 <= 255) /\
  (0 <= byte_at r 4 <= 255 /\ 0 <= byte_at r 5 <= 255 /\
   0 <= byte_at r 6 <= 255 /\ 0 <= byte_at r 7 <= 255) /\
  0 <= byte_at r 2 / 16 < 16 /\ 0 <= byte_at r 5 / 16 < 16.
Proof.
  intros Hr Lr.
  assert (forall i, (i < 8)%nat -> 0 <= byte_at r i <= 255) as Br
    by (intros; apply is_bytes_at; trivial; lia).
  repeat split; try apply Br; try apply nibble_range; try apply Br; lia.
Qed.

(** X2. Two 8-byte bursts give the same RawSample exactly when they agree
    on every byte but the low nibbles of bytes 2 and 5: those eight bits
    are the only ones the extraction drops, and no two fields overlap. *)
Theorem read_raw_eq_iff (r r' : list Z) :
  is_bytes r -> is_bytes r' -> length r = 8%nat -> length r' = 8%nat ->
  (read_raw r = read_raw r' <->
   (forall i, i <> 2%nat -> i <> 5%nat -> byte_at r i = byte_at r' i) /\
   byte_at r 2 / 16 = byte_at r' 2 / 16 /\
   byte_at r 5 / 16 = byte_at r' 5 / 16).
Proof.
  intros Hr Hr' Lr Lr'.
  rewrite (read_raw_long r), (read_raw_long r') by lia.
  pose proof (bytes_of_burst r Hr Lr) as Br.
  pose proof (bytes_of_burst r' Hr' Lr') as Br'.
  rewrite !raw20_value, !raw16_value by lia.
  split.
  - intros [= Hp Ht Hh].
    assert (byte_at r 0 = byte_at r' 0 /\ byte_at r 1 = byte_at r' 1 /\
            byte_at r 2 / 16 = byte_at r' 2 / 16) as (E0 & E1 & E2) by lia.
    assert (byte_at r 3 = byte_at r' 3 /\ byte_at r 4 = byte_at r' 4 /\
            byte_at r 5 / 16 = byte_at r' 5 / 16) as (E3 & E4 & E5) by lia.
    assert (byte_at r 6 = byte_at r' 6 /\ byte_at r 7 = byte_at r' 7)
      as (E6 & E7) by lia.
    repeat split; trivial.
    intros i N2 N5.
    do 8 (destruct i as [| i]; [trivial; contradiction |]).
    unfold byte_at. rewrite !nth_overflow by lia. reflexivity.
  - intros (Hi & E2 & E5).
    rewrite (Hi 0%nat), (Hi 1%nat), (Hi 3%nat), (Hi 4%nat), (Hi 6%nat),
      (Hi 7%nat), E2, E5 by lia.
    reflexivity.
Qed.

(** The datasheet burst and a burst that differs from it in the low
    nibbles of bytes 2 and 5 only. *)
Lemma read_raw_eq_iff_witness :
  read_raw datasheet_raw = read_raw [0x65; 0x5A; 0xC5; 0x7E; 0xED; 0x0F; 0x80; 0x00].
Proof.
  apply (proj2 (read_raw_eq_iff datasheet_raw
                  [0x65; 0x5A; 0xC5; 0x7E; 0xED; 0x0F; 0x80; 0x00]
                  (proj2 (proj2 datasheet_blocks_are_bytes))
                  ltac:(unfold is_bytes; repeat constructor; lia)
                  eq_refl eq_refl)).
  split; [| split; reflexivity].
  intros i H2 H5.
  do 8 (destruct i as [| i]; [try reflexivity; contradiction |]).
  reflexivity.
Defined.

(** ** The decoder up to byte 24 *)

Lemma le_u16_inj (a b a' b' : Z) :
  0 <= a <= 255 -> 0 <= b <= 255 -> 0 <= a' <= 255 -> 0 <= b' <= 255 ->
  le_u16 a b = le_u16 a' b' -> a = a' /\ b = b'.
Proof. unfold le_u16. lia. Qed.

Lemma le_s16_inj (a b a' b' : Z) :
  0 <= a <= 255 -> 0 <= b <= 255 -> 0 <= a' <= 255 -> 0 <= b' <= 255 ->
  le_s16 a b = le_s16 a' b' -> a = a' /\ b = b'.
Proof.
  unfold le_s16, le_u16. intros Ha Hb Ha' Hb'.
  destruct (Z.ltb_spec (a + 256 * b) 32768),
           (Z.ltb_spec (a' + 256 * b') 32768); lia.
Qed.

Lemma s8_inj (x x' : Z) :
  0 <= x <= 255 -> 0 <= x' <= 255 -> s8 x = s8 x' -> x = x'.
Proof.
  unfold s8. intros Hx Hx'.
  destruct (Z.ltb_spec x 128), (Z.ltb_spec x' 128); lia.
Qed.

Lemma nibbles_inj (b3 b4 b5 b3' b4' b5' : Z) :
  0 <= b3 <= 255 -> 0 <= b4 <= 255 -> 0 <= b5 <= 255 ->
  0 <= b3' <= 255 -> 0 <= b4' <= 255 -> 0 <= b5' <= 255 ->
  Z.lor (Z.shiftl b3 4) (Z.land b4 15) = Z.lor (Z.shiftl b3' 4) (Z.land b4' 15) ->
  Z.lor (Z.shiftl b5 4) (Z.land (Z.shiftr b4 4) 15)
    = Z.lor (Z.shiftl b5' 4) (Z.land (Z.shiftr b4' 4) 15) ->
  b3 = b3' /\ b4 = b4' /\ b5 = b5'.
Proof.
  intros H3 H4 H5 H3' H4' H5'. rewrite !h4_value, !h5_value by lia.
  pose proof (Z.mod_pos_bound b4 16 ltac:(lia)).
  pose proof (Z.mod_pos_bound b4' 16 ltac:(lia)).
  pose proof (nibble_range b4 H4). pose proof (nibble_range b4' H4').
  pose proof (Z.div_mod b4 16 ltac:(lia)).
  pose proof (Z.div_mod b4' 16 ltac:(lia)).
  lia.
Qed.

(** X3. Two pairs of byte blocks of the expected lengths decode to the
    same coefficients exactly when block B is the same and block A is the
    same at every index but 24: apart from that one byte the coefficients
    determine the blocks. *)
Theorem decode_calibration_eq_iff (A A' B B' : list Z) :
  is_bytes A -> is_bytes A' -> is_bytes B -> is_bytes B' ->
  length A = 26%nat -> length A' = 26%nat ->
  length B = 7%nat -> length B' = 7%nat ->
  (decode_calibration A B = decode_calibration A' B' <->
   (forall i, i <> 24%nat -> byte_at A i = byte_at A' i) /\ B = B').
Proof.
  intros HA HA' HB HB' LA LA' LB LB'.
  rewrite (decode_calibration_ok A B), (decode_calibration_ok A' B')
    by (trivial; lia).
  assert (forall i, (i < 26)%nat -> 0 <= byte_at A i <= 255) as bA
    by (intros; apply is_bytes_at; trivial; lia).
  assert (forall i, (i < 26)%nat -> 0 <= byte_at A' i <= 255) as bA'
    by (intros; apply is_bytes_at; trivial; lia).
  assert (forall i, (i < 7)%nat -> 0 <= byte_at B i <= 255) as bB
    by (intros; apply is_bytes_at; trivial; lia).
  assert (forall i, (i < 7)%nat -> 0 <= byte_at B' i <= 255) as bB'
    by (intros; apply is_bytes_at; trivial; lia).
  split.
  - unfold spec_calibration.
    intros [= T1 T2 T3 P1 P2 P3 P4 P5 P6 P7 P8 P9 H1 H2 H3 H4 H5 H6].
    apply le_u16_inj in T1, P1; try (apply bA || apply bA'); try lia.
    apply le_s16_inj in T2, T3, P2, P3, P4, P5, P6, P7, P8, P9;
      try (apply bA || apply bA'); try lia.
    apply le_s16_inj in H2; try (apply bB || apply bB'); try lia.
    apply s8_inj in H6; try (apply bB || apply bB'); try lia.
    pose proof (nibbles_inj (byte_at B 3) (byte_at B 4) (byte_at B 5)
                  (byte_at B' 3) (byte_at B' 4) (byte_at B' 5)
                  (bB 3%nat ltac:(lia)) (bB 4%nat ltac:(lia))
                  (bB 5%nat ltac:(lia)) (bB' 3%nat ltac:(lia))
                  (bB' 4%nat ltac:(lia)) (bB' 5%nat ltac:(lia)) H4 H5)
      as (N3 & N4 & N5).
    destruct T1, T2, T3, P1, P2, P3, P4, P5, P6, P7, P8, P9, H2.
    split.
    + intros i Hi.
      do 26 (destruct i as [| i]; [first [assumption | contradiction] |]).
      unfold byte_at. rewrite !nth_overflow by lia. reflexivity.
    + apply (nth_ext B B' 0 0); [lia |]. intros i Hi. fold (byte_at B i).
      fold (byte_at B' i).
      do 7 (destruct i as [| i]; [assumption |]). lia.
  - intros [HAi ->]. unfold spec_calibration.
    rewrite !HAi by lia. reflexivity.
Qed.

(** The datasheet blocks, and block A with byte 24 replaced. *)
Lemma decode_calibration_eq_iff_witness :
  decode_calibration datasheet_cal1 datasheet_cal2 =
  decode_calibration
    [0x70; 0x6B; 0x43; 0x67; 0x18; 0xFC; 0x7D; 0x8E; 0x43; 0xD6; 0xD0; 0x0B;
     0x27; 0x0B; 0x8C; 0x00; 0xF9; 0xFF; 0x8C; 0x3C; 0xF8; 0xC6; 0x70; 0x17;
     0xA5; 0x4B] datasheet_cal2.
Proof.
  apply (proj2 (decode_calibration_eq_iff datasheet_cal1
                  [0x70; 0x6B; 0x43; 0x67; 0x18; 0xFC; 0x7D; 0x8E; 0x43; 0xD6;
                   0xD0; 0x0B; 0x27; 0x0B; 0x8C; 0x00; 0xF9; 0xFF; 0x8C; 0x3C;
                   0xF8; 0xC6; 0x70; 0x17; 0xA5; 0x4B]
                  datasheet_cal2 datasheet_cal2
                  (proj1 datasheet_blocks_are_bytes)
                  ltac:(unfold is_bytes; repeat constructor; lia)
                  (proj1 (proj2 datasheet_blocks_are_bytes))
                  (proj1 (proj2 datasheet_blocks_are_bytes))
                  eq_refl eq_refl eq_refl eq_refl)).
  split; [| reflexivity].
  intros i H24.
  do 26 (destruct i as [| i]; [try reflexivity; contradiction |]).
  reflexivity.
Defined.

(** ** What the decoder checks *)

Lemma signed16_at_long (l : list Z) (i : nat) :
  (S i < length l)%nat ->
  signed16_at l i (S (S i))
  = if Py.is_byte (byte_at l i) && (Py.is_byte (byte_at l (S i)) && true)
    then Ok (le_s16 (byte_at l i) (byte_at l (S i)))
    else Err ValueError.
Proof.
  intros Hi. unfold signed16_at, Py.bytes. rewrite (slice_pair l i Hi).
  cbn [forallb].
  now destruct (Py.is_byte (byte_at l i) && (Py.is_byte (byte_at l (S i)) && true)).
Qed.

(** Decides the next range check of the decoder; the failing case ends the
    decoding with [ValueError]. *)
Ltac check_byte l i :=
  destruct (Py.is_byte (byte_at l i)); cbn [andb bind];
  [| solve [split; [intros _; reflexivity | discriminate]]].

(** X4. On blocks that are long enough, whatever integers they hold, the
    decoder fails exactly when one of A[2..5], A[8..23], B[0], B[1], B[6]
    is not a byte, and then with [ValueError].  The other elements it reads are not
    checked: A[0], A[1], A[6], A[7], A[25] and B[2..5] enter the
    coefficients as they are. *)
Theorem decode_calibration_range_checks (A B : list Z) :
  (26 <= length A)%nat -> (7 <= length B)%nat ->
  (struct_bytes_ok A B = false -> decode_calibration A B = Err ValueError) /\
  (struct_bytes_ok A B = true ->
   exists c, decode_calibration A B = Ok c /\
     c.(dig_T1) = Z.lor (byte_at A 0) (Z.shiftl (byte_at A 1) 8) /\
     c.(dig_P1) = Z.lor (byte_at A 6) (Z.shiftl (byte_at A 7) 8) /\
     c.(dig_H1) = byte_at A 25 /\
     c.(dig_H3) = byte_at B 2 /\
     c.(dig_H4) = Z.lor (Z.shiftl (byte_at B 3) 4) (Z.land (byte_at B 4) 15) /\
     c.(dig_H5) = Z.lor (Z.shiftl (byte_at B 5) 4)
                        (Z.land (Z.shiftr (byte_at B 4) 4) 15)).
Proof.
  intros LA LB. unfold decode_calibration, struct_bytes_ok.
  rewrite !index_in_range by lia.
  rewrite !signed16_at_long by lia.
  unfold Py.bytes. cbn [bind forallb seq app].
  check_byte A 2%nat. check_byte A 3%nat. check_byte A 4%nat.
  check_byte A 5%nat. check_byte A 8%nat. check_byte A 9%nat.
  check_byte A 10%nat. check_byte A 11%nat. check_byte A 12%nat.
  check_byte A 13%nat. check_byte A 14%nat. check_byte A 15%nat.
  check_byte A 16%nat. check_byte A 17%nat. check_byte A 18%nat.
  check_byte A 19%nat. check_byte A 20%nat. check_byte A 21%nat.
  check_byte A 22%nat. check_byte A 23%nat.
  check_byte B 0%nat. check_byte B 1%nat. check_byte B 6%nat.
  split; [discriminate |]. intros _. eexists. split; [reflexivity |].
  cbn [dig_T1 dig_P1 dig_H1 dig_H3 dig_H4 dig_H5]. repeat split.
Qed.

(** The worked example with 1000 in place of byte 0 and 70000 in place of
    byte 25 of block A: both pass unchecked into [T1] and [H1]. *)
Lemma decode_calibration_range_checks_witness :
  (struct_bytes_ok (1000 :: firstn 24 (tl datasheet_cal1) ++ [70000])
     datasheet_cal2 = false ->
   decode_calibration (1000 :: firstn 24 (tl datasheet_cal1) ++ [70000])
     datasheet_cal2 = Err ValueError) /\
  (struct_bytes_ok (1000 :: firstn 24 (tl datasheet_cal1) ++ [70000])
     datasheet_cal2 = true ->
   exists c,
     decode_calibration (1000 :: firstn 24 (tl datasheet_cal1) ++ [70000])
       datasheet_cal2 = Ok c /\
     c.(dig_T1) = Z.lor 1000 (Z.shiftl 0x6B 8) /\
     c.(dig_P1) = Z.lor 0x7D (Z.shiftl 0x8E 8) /\
     c.(dig_H1) = 70000 /\
     c.(dig_H3) = 0 /\
     c.(dig_H4) = Z.lor (Z.shiftl 0x13 4) (Z.land 0x2D 15) /\
     c.(dig_H5) = Z.lor (Z.shiftl 0x03 4) (Z.land (Z.shiftr 0x2D 4) 15)).
Proof.
  apply (decode_calibration_range_checks
           (1000 :: firstn 24 (tl datasheet_cal1) ++ [70000]) datasheet_cal2);
    simpl; lia.
Defined.

(** ** The exceptions of [main] *)

Lemma signed16_at_exn (l : list Z) (i j : nat) (e : exn) :
  signed16_at l i j = Err e -> e = ValueError \/ e = StructError.
Proof.
  unfold signed16_at, Py.bytes.
  destruct (forallb Py.is_byte (Py.slice l i j)); cbn [bind].
  - unfold Py.unpack_h.
    destruct (Py.slice l i j) as [| a [| b [| c t]]]; intros [= <-]; auto.
  - intros [= <-]. auto.
Qed.

Lemma decode_calibration_exn (A B : list Z) (e : exn) :
  decode_calibration A B = Err e ->
  e = IndexError \/ e = StructError \/ e = ValueError.
Proof.
  unfold decode_calibration.
  repeat match goal with
  | |- bind (Py.index ?l ?i) _ = _ -> _ =>
      destruct (index_cases l i) as [[? ->] | ->]; cbn [bind];
      [| intros [= <-]; auto]
  | |- bind (signed16_at ?l ?i ?j) _ = _ -> _ =>
      let E := fresh "E" in
      destruct (signed16_at l i j) as [? | ?] eqn:E; cbn [bind];
      [clear E | intros [= <-]; apply signed16_at_exn in E; tauto]
  end.
  unfold Py.bytes. cbn [forallb].
  match goal with |- context [Py.is_byte ?x] => destruct (Py.is_byte x) end;
    cbn [andb bind Py.unpack_b]; intros [= <-]; auto.
Qed.

Lemma round_exn (x : float) (n : Z) (e : exn) :
  PyFloat.round x n = Err e -> e = OverflowError.
Proof.
  unfold PyFloat.round.
  destruct (Prim2SF x) as [s | s | | s m ex]; try discriminate.
  destruct (if 0 <=? ex then Z.pos m * 10 ^ n * 2 ^ ex
            else PyFloat.div_half_even (Z.pos m * 10 ^ n) (2 ^ (- ex)));
    try discriminate.
  destruct (SFdiv prec emax _ _); congruence.
Qed.

Lemma report_exn (r : Reading) : only_overflow (report r).
Proof.
  unfold report, round_num.
  apply only_overflow_bind; [exact (round_exn _ _) | intros t _].
  apply only_overflow_bind.
  { destruct (humidity r); [apply only_overflow_ok |].
    apply only_overflow_bind; [exact (round_exn _ _) |].
    intros. apply only_overflow_ok. }
  intros h _. apply only_overflow_bind.
  { destruct (pressure r); [apply only_overflow_ok |].
    apply only_overflow_bind; [exact (round_exn _ _) |].
    intros. apply only_overflow_ok. }
  intros. apply only_overflow_ok.
Qed.

(** X5. Whatever integers the three blocks hold, [main] never raises
    [ZeroDivisionError].  A failure is the decoder's ([IndexError],
    [struct.error] or [ValueError]), or the extraction's ([IndexError] on a
    short burst, once the calibration decoded), or, once both succeeded,
    an [OverflowError] of the arithmetic. *)
Theorem main_exceptions (libm_pow : float -> float -> float)
    (A B raw : list Z) (e : exn) :
  main libm_pow A B raw = Err e ->
  (decode_calibration A B = Err e /\
   (e = IndexError \/ e = StructError \/ e = ValueError)) \/
  ((exists cal, decode_calibration A B = Ok cal) /\
   read_raw raw = Err e /\ e = IndexError) \/
  ((exists cal s, decode_calibration A B = Ok cal /\ read_raw raw = Ok s) /\
   e = OverflowError).
Proof.
  unfold main.
  destruct (decode_calibration A B) as [cal | e1] eqn:Hd; cbn [bind].
  - destruct (read_raw raw) as [s | e2] eqn:Hr; cbn [bind].
    + intros H. right. right. split; [now exists cal, s |].
      revert H. apply only_overflow_bind; [apply compensate_exn |].
      intros r _. apply report_exn.
    + intros [= <-]. right. left.
      split; [now exists cal |]. split; trivial. now apply (read_raw_exn raw).
  - intros [= <-]. left. split; trivial. now apply (decode_calibration_exn A B).
Qed.

Lemma main_exceptions_witness :
  (decode_calibration [] datasheet_cal2 = Err IndexError /\
   (IndexError = IndexError \/ IndexError = StructError
    \/ IndexError = ValueError)) \/
  ((exists cal, decode_calibration [] datasheet_cal2 = Ok cal) /\
   read_raw datasheet_raw = Err IndexError /\ IndexError = IndexError) \/
  ((exists cal s, decode_calibration [] datasheet_cal2 = Ok cal
                  /\ read_raw datasheet_raw = Ok s) /\
   IndexError = OverflowError).
Proof.
  apply (main_exceptions pow_square [] datasheet_cal2 datasheet_raw IndexError).
  reflexivity.
Defined.

(** * The runs of the BME280 reader on the bus *)

(** Unfolds a run into the answers of the bus, and decides them. *)
Ltac unfold_run :=
  unfold bme280_run, BH1750.run, Bus.io_bind, Bus.finally, Bus.open,
    Bus.read_i2c_block_data, Bus.write_byte, Bus.write_byte_data, Bus.sleep,
    Bus.print, Bus.close, Bus.lift;
  cbn [app fst snd].

Ltac run_cases opens answers accepts :=
  repeat (cbn [app fst snd];
    match goal with
    | |- context [opens ?n] => destruct (opens n) eqn:?
    | |- context [answers ?h ?a ?r ?l] => destruct (answers h a r l) eqn:?
    | |- context [accepts ?h] => destruct (accepts h) eqn:?
    | |- context [decode_calibration ?x ?y] =>
        destruct (decode_calibration x y) eqn:?
    | |- context [read_raw ?x] => destruct (read_raw x) eqn:?
    | |- context [compensate ?p ?c ?s] => destruct (compensate p c s) eqn:?
    | |- context [report ?r] => destruct (report r) eqn:?
    | |- context [BH1750.lux_of ?d] => destruct (BH1750.lux_of d) eqn:?
    | |- context [PyFloat.round ?x ?n] => destruct (PyFloat.round x n) eqn:?
    end).

(** Closes a goal on the explicit calls of one run: the calls between the
    opening and the closing are all but the first and the last. *)
Ltac between_open_and_close :=
  cbn [fst snd app];
  match goal with
  | |- exists mid, ?t = _ /\ _ => exists (removelast (tl t))
  end;
  cbn [tl removelast app]; split; [reflexivity |];
  cbn [In]; intuition congruence.

Section BME280RunProperties.

Variable libm_pow : float -> float -> float.
Variable opens : Z -> bool.
Variable answers : list (Bus.event Report) -> Z -> Z -> Z -> option (list Z).
Variable accepts : list (Bus.event Report) -> bool.
Variables bus_num address : Z.

Let run := bme280_run libm_pow opens answers accepts bus_num address [].

(** X6. The bus is closed on every path: a run that opened the bus ends
    with its one and only [close], whether the calibration decoded, a read
    failed or the report was printed; a run that could not open it makes
    no other call. *)
Theorem bme280_run_closes_bus :
  (opens bus_num = false -> run = (Bus.Raised Bus.OSError, [Bus.Open bus_num])) /\
  (opens bus_num = true ->
   exists mid, snd run = Bus.Open bus_num :: mid ++ [Bus.Close]
               /\ ~ In Bus.Close mid).
Proof.
  subst run. split; intros Ho; unfold_run; rewrite Ho; [reflexivity |].
  run_cases opens answers accepts; between_open_and_close.
Qed.

(** X7. A report is printed exactly when the bus opened, answered the
    three block reads and acknowledged the two writes, and [main] returns
    that report on the three blocks answered.  The run is then the nine
    calls of the source in their order: both calibration reads, the
    humidity oversampling written before the measurement is forced, the
    pause, the burst read, the print and the close. *)
Theorem bme280_run_prints_main (rep : Report) :
  (In (Bus.Print rep) (snd run) <->
   opens bus_num = true /\
   exists cal1 cal2 raw,
     answers [Bus.Open bus_num] address 0x88 26 = Some cal1 /\
     answers [Bus.Open bus_num; Bus.ReadBlock address 0x88 26] address 0xE1 7
       = Some cal2 /\
     accepts [Bus.Open bus_num; Bus.ReadBlock address 0x88 26;
              Bus.ReadBlock address 0xE1 7; Bus.WriteByteData address 0xF2 0x01]
       = true /\
     accepts [Bus.Open bus_num; Bus.ReadBlock address 0x88 26;
              Bus.ReadBlock address 0xE1 7; Bus.WriteByteData address 0xF2 0x01;
              Bus.WriteByteData address 0xF4 0x25]
       = true /\
     answers [Bus.Open bus_num; Bus.ReadBlock address 0x88 26;
              Bus.ReadBlock address 0xE1 7; Bus.WriteByteData address 0xF2 0x01;
              Bus.WriteByteData address 0xF4 0x25; Bus.Sleep 0x1.999999999999ap-5]
       address 0xF7 8 = Some raw /\
     main libm_pow cal1 cal2 raw = Ok rep) /\
  (In (Bus.Print rep) (snd run) ->
   run = (Bus.Done tt,
          [Bus.Open bus_num; Bus.ReadBlock address 0x88 26;
           Bus.ReadBlock address 0xE1 7; Bus.WriteByteData address 0xF2 0x01;
           Bus.WriteByteData address 0xF4 0x25; Bus.Sleep 0x1.999999999999ap-5;
           Bus.ReadBlock address 0xF7 8; Bus.Print rep; Bus.Close])).
Proof.
  subst run. split; [split |].
  - unfold_run. run_cases opens answers accepts; cbn [fst snd app In];
      intros H; try solve [exfalso; intuition congruence].
    repeat (destruct H as [H | H]); try discriminate H; try contradiction.
    injection H as ->. split; trivial.
    repeat match goal with
    | H : Some _ = Some _ |- _ => injection H as H; subst
    end.
    do 3 eexists. repeat split; try reflexivity. unfold main.
    repeat match goal with
    | H : _ = Ok _ |- _ => rewrite H; cbn [bind]
    end.
    reflexivity.
  - intros (Ho & cal1 & cal2 & raw & H1 & H2 & H3 & H4 & H5 & Hm).
    unfold main in Hm.
    destruct (decode_calibration cal1 cal2) as [cal | e] eqn:Hd;
      cbn [bind] in Hm; [| discriminate].
    destruct (read_raw raw) as [s | e] eqn:Hr; cbn [bind] in Hm; [| discriminate].
    destruct (compensate libm_pow cal s) as [r | e] eqn:Hc; cbn [bind] in Hm;
      [| discriminate].
    unfold_run. rewrite Ho. cbn [app]. rewrite H1. cbn [app]. rewrite H2.
    rewrite Hd. cbn [app]. rewrite H3. cbn [app]. rewrite H4. cbn [app].
    rewrite H5. rewrite Hr, Hc, Hm. cbn [app snd In]. intuition.
  - unfold_run. run_cases opens answers accepts; cbn [fst snd app In];
      intros H; try solve [exfalso; intuition congruence].
    repeat (destruct H as [H | H]); try discriminate H; try contradiction.
    injection H as ->. reflexivity.
Qed.

(** X8. The sensor is commanded only after its calibration decoded: a
    write reaches the bus only if both calibration blocks were read and
    decoded, it goes to the address of the reads, and it is one of the two
    writes of the source, [0x01] to register [0xF2] or [0x25] to [0xF4]. *)
Theorem bme280_run_writes (a r v : Z) :
  In (Bus.WriteByteData a r v) (snd run) ->
  a = address /\ ((r = 0xF2 /\ v = 0x01) \/ (r = 0xF4 /\ v = 0x25)) /\
  exists cal1 cal2 cal,
    answers [Bus.Open bus_num] address 0x88 26 = Some cal1 /\
    answers [Bus.Open bus_num; Bus.ReadBlock address 0x88 26] address 0xE1 7
      = Some cal2 /\
    decode_calibration cal1 cal2 = Ok cal.
Proof.
  subst run. unfold_run. run_cases opens answers accepts; cbn [fst snd app In];
    intros H; try solve [exfalso; intuition congruence];
    repeat (destruct H as [H | H]); try discriminate H; try contradiction;
    injection H as <- <- <-;
    (split; [reflexivity | split; [auto | eauto 10]]).
Qed.

End BME280RunProperties.

(** A bus that opens, answers the worked example and acknowledges every
    write: the report of the datasheet is printed. *)
Lemma bme280_run_prints_main_witness :
  bme280_run pow_square (fun _ => true) datasheet_answers (fun _ => true) 1 0x76 []
  = (Bus.Done tt,
     [Bus.Open 1; Bus.ReadBlock 0x76 0x88 26; Bus.ReadBlock 0x76 0xE1 7;
      Bus.WriteByteData 0x76 0xF2 0x01; Bus.WriteByteData 0x76 0xF4 0x25;
      Bus.Sleep 0x1.999999999999ap-5; Bus.ReadBlock 0x76 0xF7 8;
      Bus.Print datasheet_report; Bus.Close]).
Proof.
  apply (proj2 (bme280_run_prints_main pow_square (fun _ => true)
                  datasheet_answers (fun _ => true) 1 0x76 datasheet_report)).
  vm_compute. auto 10.
Defined.

Lemma bme280_run_writes_witness :
  0x76 = 0x76 /\ ((0xF4 = 0xF2 /\ 0x25 = 0x01) \/ (0xF4 = 0xF4 /\ 0x25 = 0x25)) /\
  exists cal1 cal2 cal,
    datasheet_answers [Bus.Open 1] 0x76 0x88 26 = Some cal1 /\
    datasheet_answers [Bus.Open 1; Bus.ReadBlock 0x76 0x88 26] 0x76 0xE1 7
      = Some cal2 /\
    decode_calibration cal1 cal2 = Ok cal.
Proof.
  apply (bme280_run_writes pow_square (fun _ => true) datasheet_answers
           (fun _ => true) 1 0x76 0x76 0xF4 0x25).
  vm_compute. auto 10.
Defined.

(** * The BH1750 reader *)

(** ** The order of binary64 *)

Lemma lex_spec (e1 e2 : Z) (m1 m2 : positive) :
  match lex e1 m1 e2 m2 with
  | Lt => e1 < e2 \/ (e1 = e2 /\ (m1 < m2)%positive)
  | Eq => e1 = e2 /\ m1 = m2
  | Gt => e2 < e1 \/ (e1 = e2 /\ (m2 < m1)%positive)
  end.
Proof.
  unfold lex. destruct (Z.compare_spec e1 e2); auto.
  change (Pos.compare_cont Eq m1 m2) with (Pos.compare m1 m2).
  destruct (Pos.compare_spec m1 m2); auto.
Qed.

Lemma lex_trans (e1 e2 e3 : Z) (m1 m2 m3 : positive) :
  lex e1 m1 e2 m2 <> Gt -> lex e2 m2 e3 m3 <> Gt ->
  lex e1 m1 e3 m3 = then_le (lex e1 m1 e2 m2) (lex e2 m2 e3 m3).
Proof.
  pose proof (lex_spec e1 e2 m1 m2) as H12.
  pose proof (lex_spec e2 e3 m2 m3) as H23.
  pose proof (lex_spec e1 e3 m1 m3) as H13.
  destruct (lex e1 m1 e2 m2), (lex e2 m2 e3 m3), (lex e1 m1 e3 m3);
    cbn [then_le]; intros N1 N2; try congruence; exfalso; lia.
Qed.

Lemma lex_trans_opp (e1 e2 e3 : Z) (m1 m2 m3 : positive) :
  CompOpp (lex e1 m1 e2 m2) <> Gt -> CompOpp (lex e2 m2 e3 m3) <> Gt ->
  CompOpp (lex e1 m1 e3 m3)
  = then_le (CompOpp (lex e1 m1 e2 m2)) (CompOpp (lex e2 m2 e3 m3)).
Proof.
  pose proof (lex_spec e1 e2 m1 m2) as H12.
  pose proof (lex_spec e2 e3 m2 m3) as H23.
  pose proof (lex_spec e1 e3 m1 m3) as H13.
  destruct (lex e1 m1 e2 m2), (lex e2 m2 e3 m3), (lex e1 m1 e3 m3);
    cbn [then_le CompOpp]; intros N1 N2; try congruence; exfalso; lia.
Qed.

Lemma SFcompare_finite_pos (m1 m2 : positive) (e1 e2 : Z) :
  SFcompare (S754_finite false m1 e1) (S754_finite false m2 e2)
  = Some (lex e1 m1 e2 m2).
Proof. unfold lex. simpl. now destruct (e1 ?= e2). Qed.

Lemma SFcompare_finite_neg (m1 m2 : positive) (e1 e2 : Z) :
  SFcompare (S754_finite true m1 e1) (S754_finite true m2 e2)
  = Some (CompOpp (lex e1 m1 e2 m2)).
Proof. unfold lex. simpl. now destruct (e1 ?= e2). Qed.

(** The order of the floats is transitive: a chain of [<=] and [<] steps
    compares as [<] as soon as one step is strict. *)
Lemma SFcompare_trans (x y z : spec_float) (c1 c2 : comparison) :
  SFcompare x y = Some c1 -> SFcompare y z = Some c2 ->
  c1 <> Gt -> c2 <> Gt -> SFcompare x z = Some (then_le c1 c2).
Proof.
  destruct x as [[] | [] | | [] mx ex], y as [[] | [] | | [] my ey],
    z as [[] | [] | | [] mz ez];
    rewrite ?SFcompare_finite_pos, ?SFcompare_finite_neg;
    try (simpl; intros; congruence);
    try (simpl; intros [= <-] [= <-] N1 N2; cbn [then_le]; congruence);
    try (simpl; intros [= <-] [= <-] N1 N2;
         repeat match goal with
         | H : context [lex ?a ?b ?c ?d] |- _ => destruct (lex a b c d)
         end;
         cbn [then_le CompOpp] in *; congruence).
  - intros [= <-] [= <-] N1 N2. f_equal. now apply lex_trans_opp.
  - intros [= <-] [= <-] N1 N2. f_equal. now apply lex_trans.
Qed.

Lemma ltb_trans (x y z : float) :
  (x <? y)%float = true -> (y <? z)%float = true -> (x <? z)%float = true.
Proof.
  rewrite !ltb_spec. unfold SFltb.
  destruct (SFcompare (Prim2SF x) (Prim2SF y)) as [[] |] eqn:H1;
    try discriminate.
  destruct (SFcompare (Prim2SF y) (Prim2SF z)) as [[] |] eqn:H2;
    try discriminate.
  (rewrite (SFcompare_trans _ _ _ _ _ H1 H2) by discriminate; reflexivity).
Qed.

Lemma ltb_leb_trans (x y z : float) :
  (x <? y)%float = true -> (y <=? z)%float = true -> (x <=? z)%float = true.
Proof.
  rewrite ltb_spec, !leb_spec. unfold SFltb, SFleb.
  destruct (SFcompare (Prim2SF x) (Prim2SF y)) as [[] |] eqn:H1;
    try discriminate.
  destruct (SFcompare (Prim2SF y) (Prim2SF z)) as [[] |] eqn:H2;
    try discriminate;
    (rewrite (SFcompare_trans _ _ _ _ _ H1 H2) by discriminate; reflexivity).
Qed.

Lemma leb_ltb_trans (x y z : float) :
  (x <=? y)%float = true -> (y <? z)%float = true -> (x <=? z)%float = true.
Proof.
  rewrite ltb_spec, !leb_spec. unfold SFltb, SFleb.
  destruct (SFcompare (Prim2SF y) (Prim2SF z)) as [[] |] eqn:H2;
    try discriminate.
  destruct (SFcompare (Prim2SF x) (Prim2SF y)) as [[] |] eqn:H1;
    try discriminate;
    (rewrite (SFcompare_trans _ _ _ _ _ H1 H2) by discriminate; reflexivity).
Qed.

(** * The BH1750 reader *)

Lemma in_count_up (n : nat) (s z : Z) :
  s <= z < s + Z.of_nat n -> In z (count_up n s).
Proof.
  revert s. induction n as [| n IH]; intros s Hz; [lia |].
  cbn [count_up In]. destruct (Z.eq_dec s z) as [-> | Hne]; [now left |].
  right. apply IH. lia.
Qed.

Lemma counts16_checked : forallb lux_step_ok counts16 = true.
Proof. vm_compute. reflexivity. Qed.

Lemma lux_step (raw : Z) :
  0 <= raw < 65535 ->
  (0 <=? lux_of_count raw)%float = true /\
  (lux_of_count raw <? lux_of_count (raw + 1))%float = true /\
  (lux_of_count (raw + 1) <=? 0x1.aaa9p+15)%float = true.
Proof.
  intros Hr. pose proof counts16_checked as H.
  rewrite forallb_forall in H. specialize (H raw).
  unfold lux_step_ok in H. rewrite !andb_true_iff in H.
  rewrite <- and_assoc. apply H. apply in_count_up.
  rewrite Z2Nat.id; lia.
Qed.

(** The lux value grows strictly with the count. *)
Lemma lux_increasing (a : Z) (k : nat) :
  0 <= a -> a + Z.of_nat (S k) <= 65535 ->
  (lux_of_count a <? lux_of_count (a + Z.of_nat (S k)))%float = true.
Proof.
  intros Ha. induction k as [| k IH]; intros Hb.
  - apply (lux_step a). lia.
  - apply ltb_trans with (lux_of_count (a + Z.of_nat (S k))).
    + apply IH. lia.
    + replace (a + Z.of_nat (S (S k))) with (a + Z.of_nat (S k) + 1) by lia.
      apply (lux_step (a + Z.of_nat (S k))). lia.
Qed.

Lemma lux_range (raw : Z) :
  0 <= raw <= 65535 ->
  (0 <=? lux_of_count raw)%float = true /\
  (lux_of_count raw <=? 0x1.aaa9p+15)%float = true.
Proof.
  intros Hr. destruct (Z.eq_dec raw 65535) as [-> | Hne].
  - split; vm_compute; reflexivity.
  - split; [apply (lux_step raw); lia |].
    apply ltb_leb_trans with (lux_of_count (raw + 1)); apply (lux_step raw); lia.
Qed.

Lemma lux_of_bytes (d0 d1 : Z) (t : list Z) :
  0 <= d0 <= 255 -> 0 <= d1 <= 255 ->
  BH1750.lux_of (d0 :: d1 :: t) = Ok (lux_of_count (256 * d0 + d1)).
Proof.
  intros H0 H1. unfold BH1750.lux_of, Py.index. cbn [nth_error bind].
  rewrite raw16_value by lia. py_eval.
  replace (d0 * 256 + d1) with (256 * d0 + d1) by lia. reflexivity.
Qed.

(** X9. On two bytes the lux value of the BH1750 reader, before it is
    rounded, always exists, lies between 0 and 54612.5, and grows strictly
    with the 16-bit count [256 * data[0] + data[1]]: two readings give the
    same lux only for the same count. *)
Theorem bh1750_lux_range_and_order (d0 d1 d0' d1' : Z) (t t' : list Z) :
  0 <= d0 <= 255 -> 0 <= d1 <= 255 -> 0 <= d0' <= 255 -> 0 <= d1' <= 255 ->
  exists lux lux',
    BH1750.lux_of (d0 :: d1 :: t) = Ok lux /\
    BH1750.lux_of (d0' :: d1' :: t') = Ok lux' /\
    ((0 <=? lux)%float = true /\ (lux <=? 0x1.aaa9p+15)%float = true) /\
    (256 * d0 + d1 < 256 * d0' + d1' -> (lux <? lux')%float = true) /\
    (256 * d0 + d1 = 256 * d0' + d1' -> lux = lux').
Proof.
  intros H0 H1 H0' H1'.
  exists (lux_of_count (256 * d0 + d1)), (lux_of_count (256 * d0' + d1')).
  rewrite !lux_of_bytes by assumption.
  repeat split; try (apply lux_range; lia).
  - intros Hlt.
    replace (256 * d0' + d1')
      with (256 * d0 + d1
            + Z.of_nat (S (Z.to_nat (256 * d0' + d1' - (256 * d0 + d1) - 1))))
      by lia.
    apply lux_increasing; lia.
  - now intros ->.
Qed.

Lemma bh1750_lux_range_and_order_witness :
  exists lux lux',
    BH1750.lux_of [0x01; 0x90] = Ok lux /\
    BH1750.lux_of [0x01; 0x91] = Ok lux' /\
    ((0 <=? lux)%float = true /\ (lux <=? 0x1.aaa9p+15)%float = true) /\
    (256 * 0x01 + 0x90 < 256 * 0x01 + 0x91 -> (lux <? lux')%float = true) /\
    (256 * 0x01 + 0x90 = 256 * 0x01 + 0x91 -> lux = lux').
Proof.
  apply (bh1750_lux_range_and_order 0x01 0x90 0x01 0x91 [] []); lia.
Defined.

(** X10. The BH1750 reader checks neither the length of the block it read
    nor its elements: fewer than two elements raise [IndexError]; with
    two or more, whatever integers they are, nothing is raised but an
    [OverflowError] of the arithmetic (never a [ZeroDivisionError]). *)
Theorem bh1750_reading_exceptions (data : list Z) :
  ((length data < 2)%nat -> BH1750.reading data = Err IndexError) /\
  ((2 <= length data)%nat ->
   forall e, BH1750.reading data = Err e -> e = OverflowError).
Proof.
  unfold BH1750.reading, BH1750.lux_of. split; intros Hl.
  - rewrite (index_out_of_range data 1) by lia.
    destruct (index_cases data 0) as [[x ->] | ->]; reflexivity.
  - rewrite !index_in_range by lia. cbn [bind].
    apply only_overflow_bind; [| intros x _ e; apply round_exn].
    only_overflow_expr.
Qed.

Section BH1750RunProperties.

Variable opens : Z -> bool.
Variable answers : list (Bus.event float) -> Z -> Z -> Z -> option (list Z).
Variable accepts : list (Bus.event float) -> bool.
Variables bus_num address : Z.

Let run := BH1750.run opens answers accepts bus_num address [].

(** X11. A run of the BH1750 reader that opened the bus ends with its one
    and only [close].  A value is printed exactly when the bus opened,
    acknowledged the power-on and the measurement command and answered the
    read, and it is the rounded lux of the block read; the run is then the
    seven calls of the source in their order. *)
Theorem bh1750_run_protocol :
  (opens bus_num = false -> run = (Bus.Raised Bus.OSError, [Bus.Open bus_num])) /\
  (opens bus_num = true ->
   exists mid, snd run = Bus.Open bus_num :: mid ++ [Bus.Close]
               /\ ~ In Bus.Close mid) /\
  (forall v,
     In (Bus.Print v) (snd run) <->
     opens bus_num = true /\
     accepts [Bus.Open bus_num; Bus.WriteByte address 0x01] = true /\
     accepts [Bus.Open bus_num; Bus.WriteByte address 0x01;
              Bus.WriteByte address 0x20] = true /\
     exists data,
       answers [Bus.Open bus_num; Bus.WriteByte address 0x01;
                Bus.WriteByte address 0x20; Bus.Sleep 0x1.70a3d70a3d70ap-3]
         address 0x00 2 = Some data /\
       BH1750.reading data = Ok v) /\
  (forall v,
     In (Bus.Print v) (snd run) ->
     run = (Bus.Done tt,
            [Bus.Open bus_num; Bus.WriteByte address 0x01;
             Bus.WriteByte address 0x20; Bus.Sleep 0x1.70a3d70a3d70ap-3;
             Bus.ReadBlock address 0x00 2; Bus.Print v; Bus.Close])).
Proof.
  subst run. split; [| split; [| split]].
  - intros Ho. unfold_run. now rewrite Ho.
  - intros Ho. unfold_run. rewrite Ho.
    run_cases opens answers accepts; between_open_and_close.
  - intros v. split.
    + unfold_run. run_cases opens answers accepts; cbn [fst snd app In];
        intros H; try solve [exfalso; intuition congruence].
      repeat (destruct H as [H | H]); try discriminate H; try contradiction.
      injection H as ->.
      repeat match goal with
      | H : Some _ = Some _ |- _ => injection H as H; subst
      end.
      repeat split; trivial. eexists. split; [reflexivity |].
      unfold BH1750.reading.
      repeat match goal with
      | H : _ = Ok _ |- _ => rewrite H; cbn [bind]
      end.
      reflexivity.
    + intros (Ho & H1 & H2 & data & H3 & Hr). unfold BH1750.reading in Hr.
      destruct (BH1750.lux_of data) as [lux | e] eqn:Hl; cbn [bind] in Hr;
        [| discriminate].
      unfold_run. rewrite Ho. cbn [app]. rewrite H1. cbn [app]. rewrite H2.
      cbn [app]. rewrite H3, Hl, Hr. cbn [app snd In]. intuition.
  - intros v. unfold_run. run_cases opens answers accepts; cbn [fst snd app In];
      intros H; try solve [exfalso; intuition congruence].
    repeat (destruct H as [H | H]); try discriminate H; try contradiction.
    injection H as ->. reflexivity.
Qed.

End BH1750RunProperties.

(** * The touch reader *)

Lemma fold_visit (touched : Z -> bool) (raw_value : Z -> Z)
    (l channels values : list Z) :
  fold_left (Touch.visit touched raw_value) l (channels, values)
  = (channels ++ filter touched l,
     values ++ map raw_value (filter touched l)).
Proof.
  revert channels values. induction l as [| i l IH]; intros channels values.
  - cbn [fold_left filter map]. now rewrite !app_nil_r.
  - cbn [fold_left filter Touch.visit]. destruct (touched i).
    + rewrite IH. cbn [map]. now rewrite <- !app_assoc.
    + apply IH.
Qed.

Lemma filter_sorted (f : Z -> bool) (l : list Z) :
  StronglySorted Z.lt l -> StronglySorted Z.lt (filter f l).
Proof.
  induction 1 as [| a l Hs IH Ha]; cbn [filter]; [constructor |].
  destruct (f a); trivial. constructor; trivial.
  rewrite Forall_forall in *. intros x Hx. apply Ha.
  now apply filter_In in Hx.
Qed.

Lemma count_up_sorted (n : nat) (s : Z) : StronglySorted Z.lt (count_up n s).
Proof.
  revert s. induction n as [| n IH]; intros s; cbn [count_up]; constructor.
  - apply IH.
  - rewrite Forall_forall. intros x Hx.
    assert (forall m t y, In y (count_up m t) -> t <= y) as Hge.
    { induction m as [| m IHm]; intros t y; cbn [count_up In]; [tauto |].
      intros [<- | Hy]; [lia |]. apply IHm in Hy. lia. }
    apply Hge in Hx. lia.
Qed.

Lemma count_up_in (n : nat) (s z : Z) :
  In z (count_up n s) <-> s <= z < s + Z.of_nat n.
Proof.
  split; [| apply in_count_up].
  revert s. induction n as [| n IH]; intros s; cbn [count_up In]; [tauto |].
  intros [<- | Hz]; [lia |]. apply IH in Hz. lia.
Qed.

Lemma read_mpr121_eq (touched : Z -> bool) (raw_value : Z -> Z) :
  Touch.read_mpr121 touched raw_value
  = {| Touch.channels := filter touched (count_up 12 0);
       Touch.values :=
         Touch.or_none (map raw_value (filter touched (count_up 12 0))) |}.
Proof. unfold Touch.read_mpr121. now rewrite fold_visit. Qed.

Lemma touched_channels_in (touched : Z -> bool) (i : Z) :
  In i (filter touched (count_up 12 0)) <-> 0 <= i < 12 /\ touched i = true.
Proof.
  rewrite filter_In, (count_up_in 12 0 i). cbn. tauto.
Qed.

Lemma or_none_map (f : Z -> Z) (cs vs : list Z) :
  Touch.or_none (map f cs) = Some vs ->
  vs = map f cs /\ length vs = length cs /\ cs <> [].
Proof.
  destruct cs as [| c cs]; [discriminate |]. intros [= <-].
  split; [reflexivity |].
  split; [apply (length_map f (c :: cs)) | discriminate].
Qed.

Lemma or_none_map_none (f : Z -> Z) (cs : list Z) :
  cs = [] <-> Touch.or_none (map f cs) = None.
Proof. destruct cs; split; trivial; discriminate. Qed.

(** X12. The MPR121 reader returns the touched channels, and only them, in
    increasing order and within [0, 11].  Its values are the raw values of
    those channels in the same order, one per channel, and are [None]
    exactly when no channel is touched. *)
Theorem read_mpr121_channels_and_values (touched : Z -> bool) (raw_value : Z -> Z) :
  let r := Touch.read_mpr121 touched raw_value in
  (forall i, In i r.(Touch.channels) <-> 0 <= i < 12 /\ touched i = true) /\
  StronglySorted Z.lt r.(Touch.channels) /\
  (r.(Touch.channels) = [] <-> r.(Touch.values) = None) /\
  (forall vs, r.(Touch.values) = Some vs ->
     vs = map raw_value r.(Touch.channels)
     /\ length vs = length r.(Touch.channels)).
Proof.
  cbv zeta. rewrite read_mpr121_eq. cbn [Touch.channels Touch.values].
  split; [apply touched_channels_in |].
  split; [apply filter_sorted, count_up_sorted |].
  split; [apply or_none_map_none |].
  intros vs Hvs. apply or_none_map in Hvs. tauto.
Qed.

(** X13. Whatever [main] of the touch reader prints, for either sensor
    type and either TTP223 backend, [values] is [None] or has one value
    per channel, and the channels are distinct, increasing and within
    [0, 11]; a TTP223 reports channel 0 at most and never any value.  A
    reading is printed exactly when the sensor type is one of the two
    exact names and its reader returned: for a TTP223 the first backend,
    or the second one when the first raised [ImportError].  An exception
    leaves [main] exactly when the reader of a valid type raised it: any
    exception but [ImportError] of the first TTP223 backend, any of the
    second, any of the MPR121 driver.  Any other sensor type, and no valid
    one, is refused with the error exit. *)
Theorem touch_main_output (touched : Z -> bool) (raw_value : Z -> Z)
    (mpr121_raises : option Touch.raised)
    (gpio_input : Z -> Touch.attempt Z) (is_pressed : Z -> Touch.attempt bool)
    (sensor_type : String.string) (gpio_pin : Z) :
  let out := Touch.main touched raw_value mpr121_raises gpio_input is_pressed
               sensor_type gpio_pin in
  (forall r, out = Touch.Printed r ->
     StronglySorted Z.lt r.(Touch.channels) /\
     (forall i, In i r.(Touch.channels) -> 0 <= i < 12) /\
     (forall vs, r.(Touch.values) = Some vs ->
        length vs = length r.(Touch.channels) /\ r.(Touch.channels) <> []) /\
     (sensor_type = "ttp223"%string ->
        r.(Touch.values) = None
        /\ (r.(Touch.channels) = [] \/ r.(Touch.channels) = [0]))) /\
  ((exists r, out = Touch.Printed r) <->
   (sensor_type = "ttp223"%string /\
    ((exists level, gpio_input gpio_pin = Touch.Returns level) \/
     (gpio_input gpio_pin = Touch.Raises Touch.ImportError /\
      exists pressed, is_pressed gpio_pin = Touch.Returns pressed))) \/
   (sensor_type = "mpr121"%string /\ mpr121_raises = None)) /\
  (forall e, out = Touch.Raised e <->
     (sensor_type = "ttp223"%string /\
      ((gpio_input gpio_pin = Touch.Raises e /\ e <> Touch.ImportError) \/
       (gpio_input gpio_pin = Touch.Raises Touch.ImportError /\
        is_pressed gpio_pin = Touch.Raises e))) \/
     (sensor_type = "mpr121"%string /\ mpr121_raises = Some e)) /\
  ((exists message, out = Touch.ErrorExit message) <->
   sensor_type <> "ttp223"%string /\ sensor_type <> "mpr121"%string).
Proof.
  cbv zeta. unfold Touch.main.
  assert (forall b : bool,
            StronglySorted Z.lt (if b then [0] else []) /\
            (forall i, In i (if b then [0] else []) -> 0 <= i < 12) /\
            ((if b then [0] else []) = [] \/ (if b then [0] else []) = [0]))
    as Hb.
  { intros []; (split; [repeat constructor |]); (split; [| auto]);
      cbn [In]; intros i Hi; lia. }
  assert (forall b : bool, forall r,
            Touch.Printed {| Touch.channels := if b then [0] else [];
                             Touch.values := None |} = Touch.Printed r ->
            StronglySorted Z.lt r.(Touch.channels) /\
            (forall i, In i r.(Touch.channels) -> 0 <= i < 12) /\
            (forall vs, r.(Touch.values) = Some vs ->
               length vs = length r.(Touch.channels) /\ r.(Touch.channels) <> []) /\
            ("ttp223"%string = "ttp223"%string ->
               r.(Touch.values) = None
               /\ (r.(Touch.channels) = [] \/ r.(Touch.channels) = [0]))) as Hr.
  { intros b r [= <-]. cbn [Touch.channels Touch.values].
    split; [apply Hb |]. split; [apply Hb |]. split; [discriminate |].
    intros _. split; [reflexivity | apply Hb]. }
  destruct (String.eqb_spec sensor_type "ttp223"%string) as [-> | N1].
  - unfold Touch.read_ttp223.
    destruct (gpio_input gpio_pin) as [level | [|]] eqn:G;
      [| destruct (is_pressed gpio_pin) as [pressed | e'] eqn:P |];
      cbv zeta.
    + split; [apply Hr |]. split; [| split].
      * split; [intros _; left; split; [reflexivity | left; eauto] | eauto].
      * intros e. split; [discriminate |].
        intros [[_ [[H _] | [H _]]] | [H _]]; discriminate H.
      * split; [intros [m Hm]; discriminate Hm | intros [H _]; congruence].
    + split; [apply Hr |]. split; [| split].
      * split; [intros _; left; split; [reflexivity | right; eauto] | eauto].
      * intros e. split; [discriminate |].
        intros [[_ [[H Hn] | [_ H]]] | [H _]]; [congruence | discriminate H ..].
      * split; [intros [m Hm]; discriminate Hm | intros [H _]; congruence].
    + split; [discriminate |]. split; [| split].
      * split; [intros [r Hr']; discriminate Hr' |].
        intros [[_ [[l H] | [_ [b H]]]] | [H _]]; discriminate H.
      * intros e. split.
        -- intros [= <-]. left. split; [reflexivity | right; now split].
        -- intros [[_ [[H Hn] | [_ H]]] | [H _]];
             [congruence | congruence | discriminate H].
      * split; [intros [m Hm]; discriminate Hm | intros [H _]; congruence].
    + split; [discriminate |]. split; [| split].
      * split; [intros [r Hr']; discriminate Hr' |].
        intros [[_ [[l H] | [H _]]] | [H _]]; discriminate H.
      * intros e. split.
        -- intros [= <-]. left. split; [reflexivity |].
           left. split; [reflexivity | discriminate].
        -- intros [[_ [[H _] | [H _]]] | [H _]];
             [congruence | discriminate H | discriminate H].
      * split; [intros [m Hm]; discriminate Hm | intros [H _]; congruence].
  - destruct (String.eqb_spec sensor_type "mpr121"%string) as [-> | N2].
    + unfold Touch.mpr121_session. destruct mpr121_raises as [e' |].
      * split; [discriminate |]. split; [| split].
        -- split; [intros [r Hr']; discriminate Hr' |].
           intros [[H _] | [_ H]]; discriminate H.
        -- intros e. split.
           ++ intros [= <-]. right. now split.
           ++ intros [[H _] | [_ H]]; [discriminate H | congruence].
        -- split; [intros [m Hm]; discriminate Hm | intros [_ H]; congruence].
      * split; [| split; [| split]].
        -- intros r [= <-]. rewrite read_mpr121_eq.
           cbn [Touch.channels Touch.values].
           split; [apply filter_sorted, count_up_sorted |].
           split; [intros i Hi; now apply touched_channels_in in Hi |].
           split; [| discriminate].
           intros vs Hvs. apply or_none_map in Hvs. tauto.
        -- split; [intros _; right; now split | eauto].
        -- intros e. split; [discriminate |].
           intros [[H _] | [_ H]]; discriminate H.
        -- split; [intros [m Hm]; discriminate Hm | intros [_ H]; congruence].
    + split; [discriminate |]. split; [| split].
      * split; [intros [r Hr']; discriminate Hr' |].
        intros [[H _] | [H _]]; contradiction.
      * intros e. split; [discriminate |].
        intros [[H _] | [H _]]; contradiction.
      * split; [tauto | eauto].
Qed.

(** * The DHT22 reader *)

Lemma dht22_get (p : Z) :
  (DHT22.supported p -> DHT22.get DHT22.pin_map p = Some (DHT22.D p)) /\
  (~ DHT22.supported p -> DHT22.get DHT22.pin_map p = None).
Proof.
  unfold DHT22.supported, DHT22.pin_map. cbn [DHT22.get].
  repeat match goal with
  | |- context [p =? ?k] => destruct (Z.eqb_spec p k); [subst; split; [reflexivity | lia] |]
  end.
  split; [lia | reflexivity].
Qed.

(** X14. The DHT22 reader accepts exactly the GPIO numbers 4-6, 12-13 and
    16-27, each mapped to the board pin of the same number.  For any other
    number it prints the error on the standard error and exits with
    status 1 without creating the sensor or reading anything. *)
Theorem dht22_pin_table (temperature_read humidity_read : option (option float))
    (gpio_pin : Z) :
  (forall pin, DHT22.get DHT22.pin_map gpio_pin = Some pin <->
               DHT22.supported gpio_pin /\ pin = DHT22.D gpio_pin) /\
  (~ DHT22.supported gpio_pin <->
   DHT22.run temperature_read humidity_read gpio_pin
   = (DHT22.SysExit 1, [DHT22.PrintErr (DHT22.UnsupportedPin gpio_pin)])).
Proof.
  pose proof (dht22_get gpio_pin) as [Hs Hn].
  assert (DHT22.supported gpio_pin \/ ~ DHT22.supported gpio_pin) as [S | N]
    by (unfold DHT22.supported; lia).
  - split.
    + intros pin. rewrite (Hs S). split; [intros [= <-]; auto |].
      now intros [_ ->].
    + split; [tauto |]. unfold DHT22.run. rewrite (Hs S).
      destruct (DHT22.measure temperature_read humidity_read).
      discriminate.
  - split.
    + intros pin. rewrite (Hn N). split; [discriminate | tauto].
    + split; [| tauto]. intros _. unfold DHT22.run. now rewrite (Hn N).
Qed.

(** X15. On a supported pin the sensor is created on the board pin of that
    number and released by [sensor.exit()] as the last call of every run,
    once.  Both properties are read, the temperature first, even when the
    temperature is [None].  The two values are printed exactly when both
    readings returned a float, each rounded to one decimal; when one of
    them is [None] the reader reports a null reading and exits with
    status 1. *)
Theorem dht22_run_supported (temperature_read humidity_read : option (option float))
    (gpio_pin : Z) :
  DHT22.supported gpio_pin ->
  let run := DHT22.run temperature_read humidity_read gpio_pin in
  (exists mid, snd run = DHT22.Create (DHT22.D gpio_pin) :: mid ++ [DHT22.SensorExit]
               /\ ~ In DHT22.SensorExit mid
               /\ (In DHT22.ReadHumidity mid ->
                   exists rest, mid = DHT22.ReadTemperature :: DHT22.ReadHumidity :: rest)) /\
  (forall t' h',
     In (DHT22.PrintOut t' h') (snd run) <->
     exists t h, temperature_read = Some (Some t) /\ humidity_read = Some (Some h)
                 /\ PyFloat.round t 1 = Ok t' /\ PyFloat.round h 1 = Ok h') /\
  (fst run = DHT22.SysExit 1 <->
   exists t h, temperature_read = Some t /\ humidity_read = Some h
               /\ (t = None \/ h = None)) /\
  (In (DHT22.PrintErr DHT22.NullReading) (snd run) <-> fst run = DHT22.SysExit 1).
Proof.
  intros S. cbv zeta. unfold DHT22.run.
  rewrite (proj1 (dht22_get gpio_pin) S). unfold DHT22.measure.
  destruct temperature_read as [[t |] |], humidity_read as [[h |] |];
    try destruct (PyFloat.round t 1) as [rt | e1] eqn:Rt;
    try destruct (PyFloat.round h 1) as [rh | e2] eqn:Rh;
    cbn [fst snd app].
  all: split;
    [ match goal with
      | |- exists mid, ?t = _ /\ _ => exists (removelast (tl t))
      end;
      cbn [tl removelast app]; split; [reflexivity |]; split;
      [ cbn [In]; intuition congruence
      | cbn [In]; intros H;
        first [ eexists; reflexivity | exfalso; revert H; intuition congruence ] ]
    | ].
  all: split;
    [ intros t' h'; cbn [In]; split;
      [ intros H; repeat (destruct H as [H | H]); try discriminate H;
        try contradiction; injection H as <- <-; eauto 10
      | intros (t0 & h0 & Ht & Hh & R1 & R2); try discriminate;
        injection Ht as <-; injection Hh as <-; try congruence;
        rewrite R1 in Rt; rewrite R2 in Rh; injection Rt as <-;
        injection Rh as <-; auto 10 ]
    | ].
  all: split;
    [ split;
      [ intros H; try discriminate H; eauto 10
      | intros (t0 & h0 & Ht & Hh & [-> | ->]); try discriminate; reflexivity ]
    | cbn [In]; split;
      [ intros H; repeat (destruct H as [H | H]); try discriminate H;
        try contradiction; reflexivity
      | intros H; try discriminate H; auto 10 ] ].
Qed.

Lemma dht22_run_supported_witness :
  (exists mid,
     snd (DHT22.run (Some (Some 0x1.68p+4%float)) (Some None) 17)
     = DHT22.Create (DHT22.D 17) :: mid ++ [DHT22.SensorExit]
     /\ ~ In DHT22.SensorExit mid
     /\ (In DHT22.ReadHumidity mid ->
         exists rest, mid = DHT22.ReadTemperature :: DHT22.ReadHumidity :: rest)) /\
  (forall t' h',
     In (DHT22.PrintOut t' h')
        (snd (DHT22.run (Some (Some 0x1.68p+4%float)) (Some None) 17)) <->
     exists t h, Some (Some 0x1.68p+4%float) = Some (Some t)
                 /\ @Some (option float) None = Some (Some h)
                 /\ PyFloat.round t 1 = Ok t' /\ PyFloat.round h 1 = Ok h') /\
  (fst (DHT22.run (Some (Some 0x1.68p+4%float)) (Some None) 17) = DHT22.SysExit 1 <->
   exists t h, Some (Some 0x1.68p+4%float) = Some t
               /\ @Some (option float) None = Some h
               /\ (t = None \/ h = None)) /\
  (In (DHT22.PrintErr DHT22.NullReading)
      (snd (DHT22.run (Some (Some 0x1.68p+4%float)) (Some None) 17))
   <-> fst (DHT22.run (Some (Some 0x1.68p+4%float)) (Some None) 17) = DHT22.SysExit 1).
Proof.
  apply (dht22_run_supported (Some (Some 0x1.68p+4%float)) (Some None) 17).
  unfold DHT22.supported. lia.
Defined.

(** * The HC-SR04 reader *)

Lemma hcsr04_clamp (d : float) :
  HCSR04.clamped (HCSR04.max2 (I 2) (HCSR04.min2 (I 400) (F d))).
Proof.
  unfold HCSR04.clamped, HCSR04.max2, HCSR04.min2, HCSR04.num_lt.
  change (PyFloat.nearest 400) with 400%float.
  destruct (d <? 400)%float eqn:Hhi.
  - change (PyFloat.nearest 2) with 2%float.
    destruct (2 <? d)%float eqn:Hlo; [| now left].
    right. right. now exists d.
  - cbn. right. now left.
Qed.

Lemma distance_of_clamped (pulse_start pulse_end : float) (v : num) :
  HCSR04.distance_of pulse_start pulse_end = Ok v -> HCSR04.clamped v.
Proof.
  unfold HCSR04.distance_of. py_eval.
  destruct (PyFloat.round _ 1) as [d | e]; cbn [bind]; [| discriminate].
  intros [= <-]. apply hcsr04_clamp.
Qed.

Lemma wait_more_fuel (clock : nat -> float) (echo : nat -> Z) (level : Z)
    (fuel fuel' : nat) :
  (fuel <= fuel')%nat ->
  forall timeout pulse kc ke w,
    HCSR04.wait clock echo level timeout pulse kc ke fuel = Some w ->
    HCSR04.wait clock echo level timeout pulse kc ke fuel' = Some w.
Proof.
  revert fuel'. induction fuel as [| fuel IH]; intros fuel' Hle; [discriminate |].
  destruct fuel' as [| fuel']; [lia |]. intros timeout pulse kc ke w.
  cbn [HCSR04.wait]. destruct (echo ke =? level); trivial.
  destruct (timeout <? clock kc)%float; trivial. apply IH. lia.
Qed.

(** A wait on a level that holds while the clock stays within the timeout
    ends with a timeout at the first time read beyond it. *)
Lemma wait_times_out (clock : nat -> float) (echo : nat -> Z) (level : Z)
    (timeout : float) (n : nat) :
  forall pulse kc ke fuel,
    (forall k, (k <= n)%nat -> echo (ke + k)%nat = level) ->
    (forall k, (k < n)%nat -> (timeout <? clock (kc + k)%nat)%float = false) ->
    (timeout <? clock (kc + n)%nat)%float = true ->
    (n < fuel)%nat ->
    HCSR04.wait clock echo level timeout pulse kc ke fuel = Some HCSR04.TimedOut.
Proof.
  induction n as [| n IH]; intros pulse kc ke fuel He Hc Ht Hf;
    (destruct fuel as [| fuel]; [lia |]); cbn [HCSR04.wait];
    pose proof (He 0%nat ltac:(lia)) as E0; rewrite Nat.add_0_r in E0;
    rewrite E0, Z.eqb_refl.
  - rewrite Nat.add_0_r in Ht. now rewrite Ht.
  - pose proof (Hc 0%nat ltac:(lia)) as C0. rewrite Nat.add_0_r in C0.
    rewrite C0. apply IH; try lia.
    + intros k Hk. rewrite <- (He (S k)) by lia. f_equal. lia.
    + intros k Hk. rewrite <- (Hc (S k)) by lia. do 2 f_equal. lia.
    + rewrite <- Ht. do 2 f_equal. lia.
Qed.

(** X16. Whatever the clock and the echo line do, a distance printed on
    the [RPi.GPIO] path is the timeout value 999, or lies within the
    clamped range: the integer 2, the integer 400, or a float strictly
    between them (a NaN is reported as 400).  The value 999 is outside that
    range, so a timeout cannot be mistaken for a measurement.  The outcome
    does not depend on how long the loops are followed. *)
Theorem hcsr04_printed_distance (clock : nat -> float) (echo : nat -> Z)
    (fuel : nat) (out : HCSR04.outcome) :
  HCSR04.measure clock echo fuel = Some out ->
  (forall v, out = HCSR04.Printed v -> v = I 999 \/ HCSR04.clamped v) /\
  ~ HCSR04.clamped (I 999) /\
  (forall e, out = HCSR04.Raised e -> e = OverflowError) /\
  (forall fuel', (fuel <= fuel')%nat -> HCSR04.measure clock echo fuel' = Some out).
Proof.
  unfold HCSR04.measure. cbv zeta. intros H.
  split; [| split; [| split]].
  - intros v ->.
    destruct (HCSR04.wait clock echo 0 _ _ 2 0 fuel) as [[ps kc ke |] |];
      try discriminate; [| injection H as <-; now left].
    destruct (HCSR04.wait clock echo 1 _ _ _ ke fuel) as [[pe kc' ke' |] |];
      try discriminate; [| injection H as <-; now left].
    destruct (HCSR04.distance_of ps pe) as [d | e] eqn:Hd; [| discriminate].
    injection H as <-. right. now apply (distance_of_clamped ps pe).
  - unfold HCSR04.clamped. intros [H9 | [H9 | (d & H9 & _)]]; discriminate.
  - intros e ->.
    destruct (HCSR04.wait clock echo 0 _ _ 2 0 fuel) as [[ps kc ke |] |];
      try discriminate.
    destruct (HCSR04.wait clock echo 1 _ _ _ ke fuel) as [[pe kc' ke' |] |];
      try discriminate.
    destruct (HCSR04.distance_of ps pe) as [d | e'] eqn:Hd; [discriminate |].
    injection H as ->. revert Hd. unfold HCSR04.distance_of.
    apply only_overflow_bind; [only_overflow_expr | intros pd _].
    apply only_overflow_bind; [only_overflow_expr | intros x _].
    apply only_overflow_bind; [exact (round_exn _ _) | intros r _].
    apply only_overflow_ok.
  - intros fuel' Hle.
    destruct (HCSR04.wait clock echo 0 _ _ 2 0 fuel) as [w |] eqn:W1;
      [| discriminate].
    rewrite (wait_more_fuel clock echo 0 fuel fuel' Hle _ _ _ _ _ W1).
    destruct w as [ps kc ke |]; trivial.
    destruct (HCSR04.wait clock echo 1 _ _ _ ke fuel) as [w |] eqn:W2;
      [| discriminate].
    now rewrite (wait_more_fuel clock echo 1 fuel fuel' Hle _ _ _ _ _ W2).
Qed.

(** An echo line stuck low and a clock that advances by 30 ms at each
    reading: the third reading in the loop is beyond the timeout. *)
Lemma hcsr04_printed_distance_witness :
  (forall v, HCSR04.Printed (I 999) = HCSR04.Printed v ->
             v = I 999 \/ HCSR04.clamped v) /\
  ~ HCSR04.clamped (I 999) /\
  (forall e, HCSR04.Printed (I 999) = HCSR04.Raised e -> e = OverflowError) /\
  (forall fuel', (10 <= fuel')%nat ->
     HCSR04.measure (fun k => (PyFloat.nearest (Z.of_nat k) * 0x1.eb851eb851eb8p-6)%float)
       (fun _ => 0) fuel' = Some (HCSR04.Printed (I 999))).
Proof.
  apply (hcsr04_printed_distance
           (fun k => (PyFloat.nearest (Z.of_nat k) * 0x1.eb851eb851eb8p-6)%float)
           (fun _ => 0) 10 (HCSR04.Printed (I 999))).
  vm_compute. reflexivity.
Defined.

(** X17. When the echo line stays low while the clock is within 100 ms of
    the start, the reader stops at the first time read beyond the timeout
    and prints 999, without computing any distance. *)
Theorem hcsr04_no_echo_times_out (clock : nat -> float) (echo : nat -> Z)
    (n fuel : nat) :
  (forall k, (k <= n)%nat -> echo k = 0) ->
  (forall k, (k < n)%nat ->
     (clock 0%nat + 0x1.999999999999ap-4 <? clock (2 + k)%nat)%float = false) ->
  (clock 0%nat + 0x1.999999999999ap-4 <? clock (2 + n)%nat)%float = true ->
  (n < fuel)%nat ->
  HCSR04.measure clock echo fuel = Some (HCSR04.Printed (I 999)).
Proof.
  intros He Hc Ht Hf. unfold HCSR04.measure. cbv zeta.
  now rewrite (wait_times_out clock echo 0 _ n (clock 1%nat) 2%nat 0%nat fuel
                 He Hc Ht Hf).
Qed.

Lemma hcsr04_no_echo_times_out_witness :
  HCSR04.measure (fun k => (PyFloat.nearest (Z.of_nat k) * 0x1.eb851eb851eb8p-6)%float)
    (fun _ => 0) 10 = Some (HCSR04.Printed (I 999)).
Proof.
  apply (hcsr04_no_echo_times_out
           (fun k => (PyFloat.nearest (Z.of_nat k) * 0x1.eb851eb851eb8p-6)%float)
           (fun _ => 0) 2 10).
  - reflexivity.
  - intros k Hk. destruct k as [| [| k]]; [vm_compute; reflexivity .. | lia].
  - vm_compute. reflexivity.
  - lia.
Defined.


(** A wait whose level holds for [n] tests within the timeout and is left
    at the next test ends there, with the last time read in the loop. *)
Lemma wait_edge (clock : nat -> float) (echo : nat -> Z) (level : Z)
    (timeout : float) (n : nat) :
  forall pulse kc ke fuel,
    (forall k, (k < n)%nat -> echo (ke + k)%nat = level) ->
    echo (ke + n)%nat <> level ->
    (forall k, (k < n)%nat -> (timeout <? clock (kc + k)%nat)%float = false) ->
    (n < fuel)%nat ->
    HCSR04.wait clock echo level timeout pulse kc ke fuel
    = Some (HCSR04.Edge (match n with
                         | O => pulse
                         | S m => clock (kc + m)%nat
                         end) (kc + n) (S (ke + n))).
Proof.
  induction n as [| n IH]; intros pulse kc ke fuel He Hn Hc Hf;
    (destruct fuel as [| fuel]; [lia |]); cbn [HCSR04.wait].
  - rewrite Nat.add_0_r in Hn. apply Z.eqb_neq in Hn. rewrite Hn.
    now rewrite !Nat.add_0_r.
  - pose proof (He 0%nat ltac:(lia)) as E0. rewrite Nat.add_0_r in E0.
    rewrite E0, Z.eqb_refl.
    pose proof (Hc 0%nat ltac:(lia)) as C0. rewrite Nat.add_0_r in C0.
    rewrite C0.
    rewrite (IH (clock kc) (S kc) (S ke) fuel); try lia.
    + replace (S kc + n)%nat with (kc + S n)%nat by lia.
      replace (S ke + n)%nat with (ke + S n)%nat by lia.
      destruct n as [| n]; [now rewrite Nat.add_0_r |].
      do 2 f_equal. f_equal. lia.
    + intros k Hk. rewrite <- (He (S k)) by lia. f_equal. lia.
    + replace (S ke + n)%nat with (ke + S n)%nat by lia. exact Hn.
    + intros k Hk. rewrite <- (Hc (S k)) by lia. do 2 f_equal. lia.
Qed.

(** X18. When the echo line is low for its first [a] readings and then
    high for [b] readings from the one after the rising edge, without a
    timeout, the pulse is timed from the last time read in the first loop
    (the time read before it when [a = 0]) to the last time read in the
    second loop (the time read between the loops when [b = 0]).  The
    reading that ends the first loop is not tested against 1; the second
    loop starts with a fresh reading. *)
Theorem hcsr04_pulse_bounds (clock : nat -> float) (echo : nat -> Z)
    (a b fuel : nat) :
  (forall k, (k < a)%nat -> echo k = 0) -> echo a <> 0 ->
  (forall k, (k < b)%nat -> echo (S a + k)%nat = 1) -> echo (S a + b)%nat <> 1 ->
  (forall k, (k < a)%nat ->
     (clock 0%nat + 0x1.999999999999ap-4 <? clock (2 + k)%nat)%float = false) ->
  (forall k, (k < b)%nat ->
     (clock (a + 3)%nat + 0x1.999999999999ap-4 <? clock (a + 4 + k)%nat)%float
     = false) ->
  (a < fuel)%nat -> (b < fuel)%nat ->
  HCSR04.measure clock echo fuel
  = Some (match HCSR04.distance_of
                  (clock (S a))
                  (clock (match b with O => a + 2 | S _ => a + 3 + b end)%nat) with
          | Ok distance => HCSR04.Printed distance
          | Err e => HCSR04.Raised e
          end).
Proof.
  intros Ea Na Eb Nb Ca Cb Fa Fb. unfold HCSR04.measure. cbv zeta.
  pose proof (wait_edge clock echo 0 _ a (clock 1%nat) 2%nat 0%nat fuel
                Ea Na Ca Fa) as W1.
  cbn [Nat.add] in W1. rewrite W1. clear W1.
  assert (forall k, (k < b)%nat ->
            (clock (S (S (S a))) + 0x1.999999999999ap-4
               <? clock (S (S (S (S a))) + k)%nat)%float = false) as Cb'.
  { intros k Hk. rewrite <- (Cb k Hk). repeat f_equal; lia. }
  pose proof (wait_edge clock echo 1 _ b (clock (S (S a))) (S (S (S (S a))))
                (S a) fuel Eb Nb Cb' Fb) as W2.
  rewrite W2. clear W2.
  replace (match a with O => clock 1%nat | S m => clock (S (S m)) end)
    with (clock (S a)) by now destruct a.
  replace (match b with
           | O => clock (S (S a))
           | S m => clock (S (S (S (S a))) + m)%nat
           end)
    with (clock (match b with O => a + 2 | S _ => a + 3 + b end)%nat);
    [now destruct (HCSR04.distance_of _ _) |].
  destruct b as [| b]; f_equal; lia.
Qed.

(** A clock that advances by 1 ms at each reading, an echo line that rises
    at its fourth reading and falls at its seventh: the pulse is timed
    from the fifth to the ninth time read, 4 ms, which is 68.6 cm. *)
Lemma hcsr04_pulse_bounds_witness :
  HCSR04.measure
    (fun k => (PyFloat.nearest (Z.of_nat k) * 0x1.0624dd2f1a9fcp-10)%float)
    (fun k => if (3 <=? k)%nat && (k <? 6)%nat then 1 else 0) 10
  = Some (HCSR04.Printed (F 0x1.1266666666666p+6)).
Proof.
  rewrite (hcsr04_pulse_bounds
             (fun k => (PyFloat.nearest (Z.of_nat k) * 0x1.0624dd2f1a9fcp-10)%float)
             (fun k => if (3 <=? k)%nat && (k <? 6)%nat then 1 else 0) 3 2 10).
  - vm_compute. reflexivity.
  - intros k Hk. do 3 (destruct k as [| k]; [reflexivity |]). lia.
  - discriminate.
  - intros k Hk. do 2 (destruct k as [| k]; [reflexivity |]). lia.
  - discriminate.
  - intros k Hk. do 3 (destruct k as [| k]; [vm_compute; reflexivity |]). lia.
  - intros k Hk. do 2 (destruct k as [| k]; [vm_compute; reflexivity |]). lia.
  - lia.
  - lia.
Defined.
